(** * ADGM corporate agent: document classification, compliance rules,
      checklist verification and report aggregation

    A shallow embedding of [src/checklist.py] and of the class
    [DocumentProcessor] of [src/doc_processing.py], followed by the
    properties of the specification that were checked against it.

    Conventions of the embedding.
    - A Python [str] is a [string] whose characters are read as the code
      points 0..255; [lower] and the white-space class of [\s] are the
      ones Python uses on that range.
    - A Python [float] is a primitive binary64 [float]; the arithmetic,
      the comparisons and [round] are the IEEE ones Python performs.
    - A [dict] with a fixed set of keys is a record; a dict that comes in
      two shapes (a result or an error) is an inductive type with one
      constructor per shape; a dict that is iterated is an association
      list in insertion order.
    - An exception is a value of [exn]; code that may raise lives in the
      error monad [py]. *)

From Stdlib Require Import Floats Uint63 ZArith String Ascii List Bool Arith Lia.
From Stdlib Require Import DecimalString.
Import ListNotations.

Set Warnings "-inexact-float".

Open Scope string_scope.
Open Scope list_scope.

(* ================================================================== *)
(** * Python primitives used by the two modules *)
(* ================================================================== *)

Module Py.

(** ** Exceptions *)

Inductive exn : Type :=
| KeyError (key : string)
| ZeroDivisionError.

(** [str(e)] *)
Definition str_exn (e : exn) : string :=
  match e with
  | KeyError key => "'" ++ key ++ "'"
  | ZeroDivisionError => "division by zero"
  end.

Definition py (A : Type) : Type := (exn + A)%type.

Definition ret {A : Type} (a : A) : py A := inr a.
Definition raise {A : Type} (e : exn) : py A := inl e.
Definition bind {A B : Type} (m : py A) (k : A -> py B) : py B :=
  match m with
  | inl e => inl e
  | inr a => k a
  end.

(** ** str.lower *)

Definition is_upper (c : ascii) : bool :=
  let n := nat_of_ascii c in
  (((65 <=? n) && (n <=? 90))
   || ((192 <=? n) && (n <=? 222) && negb (n =? 215)))%nat.

Definition lower_char (c : ascii) : ascii :=
  if is_upper c then ascii_of_nat (nat_of_ascii c + 32) else c.

Fixpoint lower (s : string) : string :=
  match s with
  | EmptyString => EmptyString
  | String c s' => String (lower_char c) (lower s')
  end.

(** ** [needle in haystack] on strings *)

Fixpoint str_in (needle haystack : string) : bool :=
  prefix needle haystack
  || match haystack with
     | EmptyString => false
     | String _ rest => str_in needle rest
     end.

(** ** [sep.join(items)] *)

Fixpoint join (sep : string) (items : list string) : string :=
  match items with
  | [] => ""
  | [x] => x
  | x :: rest => x ++ sep ++ join sep rest
  end.

(** ** The fragment of [re] the detection table uses

    Every pattern of the table is a sequence of literal characters and
    of [\s+].  [re_compile] reads a pattern in that syntax, and
    [re_search] looks for a match starting at any position. *)

Inductive re_atom : Type :=
| RChar (c : ascii)
| RSpaces.

Definition regex : Type := list re_atom.

Fixpoint re_compile (pattern : string) : regex :=
  match pattern with
  | String "\" (String "s" (String "+" rest)) => RSpaces :: re_compile rest
  | String c rest => RChar c :: re_compile rest
  | EmptyString => []
  end.

(** [\s] on code points below 256 *)
Definition is_space (c : ascii) : bool :=
  let n := nat_of_ascii c in
  (((9 <=? n) && (n <=? 13)) || ((28 <=? n) && (n <=? 32))
   || (n =? 133) || (n =? 160))%nat.

Fixpoint re_match_here (s : string) (r : regex) {struct s} : bool :=
  match r with
  | [] => true
  | RChar c :: r' =>
      match s with
      | String d s' => Ascii.eqb c d && re_match_here s' r'
      | EmptyString => false
      end
  | RSpaces :: r' =>
      match s with
      | String d s' =>
          is_space d && (re_match_here s' (RSpaces :: r') || re_match_here s' r')
      | EmptyString => false
      end
  end.

Fixpoint re_search_compiled (r : regex) (s : string) : bool :=
  re_match_here s r
  || match s with
     | EmptyString => false
     | String _ rest => re_search_compiled r rest
     end.

(** [re.search(pattern, s)] as a truth value *)
Definition re_search (pattern s : string) : bool :=
  re_search_compiled (re_compile pattern) s.

(** ** Numbers *)

(** [float(n)] for the length of a list *)
Definition float_of_nat (n : nat) : float :=
  PrimFloat.of_uint63 (Uint63.of_Z (Z.of_nat n)).

(** [a / b] on two [int]s that are lengths of lists *)
Definition truediv (a b : nat) : py float :=
  match b with
  | O => raise ZeroDivisionError
  | S _ => ret (float_of_nat a / float_of_nat b)%float
  end.

(** Nearest integer to [num / den], ties to the even one ([0 < den]). *)
Definition round_half_even (num den : Z) : Z :=
  let q := (num / den)%Z in
  let r := (num mod den)%Z in
  if (2 * r <? den)%Z then q
  else if (den <? 2 * r)%Z then (q + 1)%Z
  else if Z.even q then q else (q + 1)%Z.

(** [round(x, ndigits)] for [0 <= ndigits]: the exact value of [x] is
    rounded to [ndigits] decimals, ties to even, and the decimal
    obtained is read back as the nearest float. *)
Definition round (x : float) (ndigits : nat) : float :=
  match Prim2SF x with
  | S754_finite sign m e =>
      let scale := (10 ^ Z.of_nat ndigits)%Z in
      let n :=
        if (0 <=? e)%Z then (Z.pos m * 2 ^ e * scale)%Z
        else round_half_even (Z.pos m * scale) (2 ^ (- e)) in
      match n, scale with
      | Zpos p, Zpos sc =>
          SF2Prim (SFdiv prec emax (S754_finite sign p 0) (S754_finite false sc 0))
      | _, _ => SF2Prim (S754_zero sign)
      end
  | _ => x
  end.

(** [min(a, b)] on floats *)
Definition min (a b : float) : float :=
  if PrimFloat.ltb b a then b else a.

End Py.

Import Py.

Notation "x <- m ;; k" := (bind m (fun x => k))
  (at level 61, m at next level, right associativity).

(* ================================================================== *)
(** * src/checklist.py *)
(* ================================================================== *)

Module checklist.

Record Checklist : Type := {
  required_documents : list string;
  description : string;
  priority : string
}.

Definition ADGM_CHECKLISTS : list (string * Checklist) :=
  [ ("Company Incorporation",
     {| required_documents :=
          [ "Articles of Association";
            "Memorandum of Association";
            "Board Resolution Template";
            "Shareholder Resolution Template";
            "UBO Declaration Form";
            "Register of Members and Directors";
            "Incorporation Application Form";
            "Change of Registered Address Notice" ];
        description :=
          "Complete set of documents required for company formation in ADGM";
        priority := "High" |});
    ("Licensing",
     {| required_documents :=
          [ "Licensing Application Form";
            "Business Plan Template";
            "Financial Projections";
            "Risk Assessment Document";
            "Compliance Manual";
            "Anti-Money Laundering Policy";
            "Risk Management Policy" ];
        description := "Documents needed for obtaining ADGM business license";
        priority := "High" |});
    ("Employment",
     {| required_documents :=
          [ "Standard Employment Contract Template";
            "Confidentiality Agreement";
            "Non-Compete Agreement";
            "Employee Handbook";
            "HR Policies and Procedures" ];
        description := "Employment-related documents for ADGM companies";
        priority := "Medium" |});
    ("Compliance",
     {| required_documents :=
          [ "Compliance Manual";
            "Risk Management Policy";
            "Anti-Money Laundering Policy";
            "Data Protection Policy";
            "Annual Compliance Report Template" ];
        description := "Ongoing compliance documentation requirements";
        priority := "High" |});
    ("Corporate Governance",
     {| required_documents :=
          [ "Board Charter";
            "Corporate Governance Manual";
            "Code of Conduct";
            "Whistleblower Policy";
            "Board Meeting Minutes Template" ];
        description := "Corporate governance framework documents";
        priority := "Medium" |}) ].

(** [d.get(key)] on a dict kept as an association list *)
Fixpoint dict_get {V : Type} (d : list (string * V)) (key : string) : option V :=
  match d with
  | [] => None
  | (k, v) :: rest => if String.eqb k key then Some v else dict_get rest key
  end.

(** [ADGM_CHECKLISTS.get(process_name, {})]: the empty dict of the
    default is [None]. *)
Definition get_checklist_for_process (process_name : string) : option Checklist :=
  dict_get ADGM_CHECKLISTS process_name.

Definition get_all_processes : list string :=
  map fst ADGM_CHECKLISTS.

(** The dict [verify_checklist_completeness] returns on a known process *)
Record ChecklistResult : Type := {
  process : string;
  required_count : nat;
  uploaded_count : nat;
  missing_count : nat;
  completeness_percentage : float;
  present_documents : list string;
  missing_documents : list string;
  status : string
}.

(** The two shapes of that dict: [{"status", "message"}] and the full one *)
Inductive checklist_result : Type :=
| ChecklistError (err_status err_message : string)
| ChecklistOk (r : ChecklistResult).

(** [checklist_result["status"]], a key both shapes have *)
Definition result_status (c : checklist_result) : string :=
  match c with
  | ChecklistError st _ => st
  | ChecklistOk r => status r
  end.

(** [any(req_doc.lower() in uploaded for uploaded in uploaded_doc_names)] *)
Definition is_uploaded (uploaded_doc_names : list string) (req_doc : string) : bool :=
  existsb (fun uploaded => str_in (lower req_doc) uploaded) uploaded_doc_names.

(** One turn of the loop over [required_docs]; the state is
    [(missing_docs, present_docs)]. *)
Definition classify_required (uploaded_doc_names : list string)
    (acc : list string * list string) (req_doc : string)
    : list string * list string :=
  let '(missing_docs, present_docs) := acc in
  if is_uploaded uploaded_doc_names req_doc
  then (missing_docs, present_docs ++ [req_doc])
  else (missing_docs ++ [req_doc], present_docs).

Definition verify_checklist_completeness
    (uploaded_docs : list string) (process_name : string) : py checklist_result :=
  match get_checklist_for_process process_name with
  | None =>
      ret (ChecklistError "error" ("Unknown process: " ++ process_name))
  | Some checklist =>
      let required_docs := required_documents checklist in
      let uploaded_doc_names := map lower uploaded_docs in
      let '(missing_docs, present_docs) :=
        fold_left (classify_required uploaded_doc_names) required_docs ([], []) in
      ratio <- truediv (length present_docs) (length required_docs) ;;
      let completeness_percentage := (ratio * 100)%float in
      ret (ChecklistOk
             {| process := process_name;
                required_count := length required_docs;
                uploaded_count := length present_docs;
                missing_count := length missing_docs;
                completeness_percentage := round completeness_percentage 2;
                present_documents := present_docs;
                missing_documents := missing_docs;
                status := match missing_docs with
                          | [] => "complete"
                          | _ :: _ => "incomplete"
                          end |})
  end.

End checklist.

Import checklist.

(* ================================================================== *)
(** * src/doc_processing.py, class DocumentProcessor *)
(* ================================================================== *)

Module doc_processing.

(** ** The tables set up by [__init__] *)

Definition document_patterns : list (string * list string) :=
  [ ("Articles of Association",
     [ "articles\s+of\s+association";
       "aoa";
       "company\s+constitution";
       "internal\s+regulations" ]);
    ("Memorandum of Association",
     [ "memorandum\s+of\s+association";
       "moa";
       "company\s+objectives";
       "business\s+purpose" ]);
    ("UBO Declaration",
     [ "ubo\s+declaration";
       "ultimate\s+beneficial\s+owner";
       "beneficial\s+ownership";
       "ownership\s+structure" ]);
    ("Board Resolution",
     [ "board\s+resolution";
       "directors\s+resolution";
       "board\s+decision";
       "directors\s+meeting" ]);
    ("Employment Contract",
     [ "employment\s+contract";
       "employment\s+agreement";
       "staff\s+contract";
       "employee\s+terms" ]);
    ("Compliance Manual",
     [ "compliance\s+manual";
       "compliance\s+policy";
       "regulatory\s+compliance";
       "compliance\s+framework" ]) ].

(** A rule of [compliance_rules].  The key ["forbidden"] exists for the
    first two rules only and is read for those two only; the other two
    carry the empty list here. *)
Module Rule.
Record t : Type := {
  required : list string;
  forbidden : list string;
  severity : string
}.
End Rule.

(** [compliance_rules], a dict with four fixed keys *)
Record ComplianceRules : Type := {
  jurisdiction : Rule.t;
  governing_law : Rule.t;
  signature_blocks : Rule.t;
  document_structure : Rule.t
}.

Definition compliance_rules : ComplianceRules :=
  {| jurisdiction :=
       {| Rule.required := ["ADGM"; "Abu Dhabi Global Market"; "ADGM Courts"];
          Rule.forbidden :=
            ["UAE Federal Courts"; "Dubai Courts";
             "Dubai International Financial Centre"];
          Rule.severity := "High" |};
     governing_law :=
       {| Rule.required := ["ADGM"; "English Law"; "Common Law"];
          Rule.forbidden := ["UAE Federal Law"; "Dubai Law"];
          Rule.severity := "High" |};
     signature_blocks :=
       {| Rule.required := ["signature"; "witness"; "notary"];
          Rule.forbidden := [];
          Rule.severity := "Medium" |};
     document_structure :=
       {| Rule.required := ["clause"; "section"; "article"];
          Rule.forbidden := [];
          Rule.severity := "Low" |} |}.

(** ** detect_document_type *)

(** The body of [for pattern in patterns] *)
Definition score_pattern (content_lower filename_lower : string)
    (score : float) (pattern : string) : float :=
  let score :=
    if re_search pattern content_lower then (score + 0.6)%float else score in
  if re_search pattern filename_lower then (score + 0.4)%float else score.

(** The [if / elif / elif] on [doc_type] after the patterns *)
Definition score_keywords (doc_type content_lower : string) (score : float) : float :=
  if doc_type =? "Articles of Association" then
    if str_in "clause" content_lower && str_in "company" content_lower
    then (score + 0.2)%float else score
  else if doc_type =? "Memorandum of Association" then
    if str_in "object" content_lower && str_in "purpose" content_lower
    then (score + 0.2)%float else score
  else if doc_type =? "UBO Declaration" then
    if str_in "ownership" content_lower && str_in "percentage" content_lower
    then (score + 0.2)%float else score
  else score.

(** The score a type reaches on a document *)
Definition type_score (content_lower filename_lower doc_type : string)
    (patterns : list string) : float :=
  let score := fold_left (score_pattern content_lower filename_lower) patterns 0%float in
  score_keywords doc_type content_lower score.

(** The body of [for doc_type, patterns in ...]; the state is
    [(best_match, best_score)]. *)
Definition score_type (content_lower filename_lower : string)
    (best : option string * float) (entry : string * list string)
    : option string * float :=
  let '(best_match, best_score) := best in
  let '(doc_type, patterns) := entry in
  let score := type_score content_lower filename_lower doc_type patterns in
  if PrimFloat.ltb best_score score then (Some doc_type, score) else best.

(** [best_match in names]; [None] is in no list of strings *)
Definition match_in (best_match : option string) (names : list string) : bool :=
  match best_match with
  | Some t => existsb (String.eqb t) names
  | None => false
  end.

(** [best_match or default] *)
Definition or_default (best_match : option string) (default : string) : string :=
  match best_match with
  | Some t => if t =? "" then default else t
  | None => default
  end.

Definition detect_document_type (content filename : string)
    : string * string * float :=
  let content_lower := lower content in
  let filename_lower := lower filename in
  let '(best_match, best_score) :=
    fold_left (score_type content_lower filename_lower) document_patterns
      (None, 0%float) in
  let best_category :=
    if match_in best_match
         ["Articles of Association"; "Memorandum of Association"; "UBO Declaration"]
    then "Company Incorporation"
    else if match_in best_match ["Employment Contract"; "Confidentiality Agreement"]
    then "Employment"
    else if match_in best_match ["Compliance Manual"; "Risk Management Policy"]
    then "Compliance"
    else "General Legal" in
  (or_default best_match "Unknown Document", best_category, Py.min best_score 1%float).

(** ** check_adgm_compliance *)

(** An issue dict.  [severity] is read with [.get], hence the option;
    the evaluator always sets it. *)
Record Issue : Type := {
  issue : string;
  severity : option string;
  suggestion : string;
  regulation : string;
  section : string
}.

(** [any(required.lower() in content for required in rule["required"])] *)
Definition any_required (rule : Rule.t) (content : string) : bool :=
  existsb (fun required => str_in (lower required) content) (Rule.required rule).

(** The first phrase of [rule["forbidden"]] on which the loop returns *)
Definition first_forbidden (rule : Rule.t) (content : string) : option string :=
  find (fun forbidden => str_in (lower forbidden) content) (Rule.forbidden rule).

Definition _check_jurisdiction_compliance (content : string) : option Issue :=
  let rule := jurisdiction compliance_rules in
  match first_forbidden rule content with
  | Some forbidden =>
      Some {| issue := "Incorrect jurisdiction: " ++ forbidden;
              severity := Some (Rule.severity rule);
              suggestion := "Update jurisdiction to ADGM Courts";
              regulation := "ADGM Companies Regulations 2020, Art. 6";
              section := "Jurisdiction" |}
  | None =>
      let has_adgm_jurisdiction := any_required rule content in
      if negb has_adgm_jurisdiction then
        Some {| issue := "Missing ADGM jurisdiction clause";
                severity := Some (Rule.severity rule);
                suggestion := "Add jurisdiction clause specifying ADGM Courts";
                regulation := "ADGM Companies Regulations 2020, Art. 6";
                section := "Jurisdiction" |}
      else None
  end.

Definition _check_governing_law_compliance (content : string) : option Issue :=
  let rule := governing_law compliance_rules in
  match first_forbidden rule content with
  | Some forbidden =>
      Some {| issue := "Incorrect governing law: " ++ forbidden;
              severity := Some (Rule.severity rule);
              suggestion := "Update governing law to ADGM/English Law";
              regulation := "ADGM Companies Regulations 2020, Art. 7";
              section := "Governing Law" |}
  | None => None
  end.

Definition _check_signature_compliance (content : string) : option Issue :=
  let rule := signature_blocks compliance_rules in
  let has_signature := any_required rule content in
  if negb has_signature then
    Some {| issue := "Missing signature section";
            severity := Some (Rule.severity rule);
            suggestion := "Add proper signature blocks with witness section";
            regulation := "ADGM Companies Regulations 2020, Art. 12";
            section := "Execution" |}
  else None.

Definition _check_structure_compliance (content document_type : string)
    : option Issue :=
  let rule := document_structure compliance_rules in
  let has_structure := any_required rule content in
  if negb has_structure then
    Some {| issue := "Poor document structure";
            severity := Some (Rule.severity rule);
            suggestion := "Organize document with proper clauses and sections";
            regulation := "ADGM Companies Regulations 2020, Art. 10";
            section := "Document Requirements" |}
  else None.

Definition _check_document_specific_compliance (content document_type : string)
    : list Issue :=
  let issues : list Issue := [] in
  if document_type =? "Articles of Association" then
    if negb (str_in "share capital" content) && negb (str_in "capital" content)
    then issues ++
         [ {| issue := "Missing share capital information";
              severity := Some "Medium";
              suggestion := "Include share capital structure and classes";
              regulation := "ADGM Companies Regulations 2020, Art. 15";
              section := "Share Capital" |} ]
    else issues
  else if document_type =? "UBO Declaration" then
    if negb (str_in "percentage" content) && negb (str_in "ownership" content)
    then issues ++
         [ {| issue := "Missing ownership percentages";
              severity := Some "High";
              suggestion := "Include beneficial ownership percentages";
              regulation := "ADGM Companies Regulations 2020, Art. 20";
              section := "Beneficial Ownership" |} ]
    else issues
  else if document_type =? "Employment Contract" then
    if negb (str_in "termination" content) && negb (str_in "notice" content)
    then issues ++
         [ {| issue := "Missing termination clauses";
              severity := Some "Medium";
              suggestion := "Include termination and notice provisions";
              regulation := "ADGM Employment Regulations";
              section := "Employment Terms" |} ]
    else issues
  else issues.

(** [if x: issues.append(x)] *)
Definition append_if (issues : list Issue) (x : option Issue) : list Issue :=
  match x with
  | Some i => issues ++ [i]
  | None => issues
  end.

Definition check_adgm_compliance (content document_type : string) : list Issue :=
  let issues : list Issue := [] in
  let content_lower := lower content in
  let jurisdiction_issue := _check_jurisdiction_compliance content_lower in
  let issues := append_if issues jurisdiction_issue in
  let governing_law_issue := _check_governing_law_compliance content_lower in
  let issues := append_if issues governing_law_issue in
  let signature_issue := _check_signature_compliance content_lower in
  let issues := append_if issues signature_issue in
  let structure_issue := _check_structure_compliance content_lower document_type in
  let issues := append_if issues structure_issue in
  let doc_specific_issues :=
    _check_document_specific_compliance content_lower document_type in
  issues ++ doc_specific_issues.

(** ** generate_comprehensive_report *)

(** A document-analysis dict, with the two keys the aggregator reads:
    ["filename"] by subscript and ["issues"] with [.get]. *)
Record Document : Type := {
  filename : string;
  issues : option (list Issue)
}.

(** [doc.get("issues", [])] *)
Definition get_issues (doc : Document) : list Issue :=
  match issues doc with
  | Some l => l
  | None => []
  end.

(** [issue.get("severity") == "High"] *)
Definition is_high (i : Issue) : bool :=
  match severity i with
  | Some s => s =? "High"
  | None => false
  end.

(** [high_issues], filled by the two nested loops *)
Definition collect_high_issues (documents : list Document) : list string :=
  fold_left
    (fun high_issues doc =>
       fold_left
         (fun high_issues i =>
            if is_high i
            then high_issues ++ [(filename doc ++ ": " ++ issue i)%string]
            else high_issues)
         (get_issues doc) high_issues)
    documents [].

Definition missing_line (missing : list string) : string :=
  "Upload missing documents: " ++ join ", " missing.

Definition _generate_recommendations (documents : list Document)
    (checklist_result : checklist_result) : py (list string) :=
  match checklist_result with
  | ChecklistError _ _ => raise (KeyError "missing_documents")
  | ChecklistOk c =>
      let recommendations : list string := [] in
      let recommendations :=
        match missing_documents c with
        | [] => recommendations
        | _ :: _ => recommendations ++ [missing_line (missing_documents c)]
        end in
      let high_issues := collect_high_issues documents in
      let recommendations :=
        match high_issues with
        | [] => recommendations
        | _ :: _ =>
            (recommendations ++ ["Address high severity issues immediately"])
            ++ firstn 3 high_issues
        end in
      let recommendations :=
        if PrimFloat.ltb (completeness_percentage c) 80%float
        then recommendations ++ ["Complete document package for better compliance"]
        else recommendations in
      let recommendations :=
        match recommendations with
        | [] => recommendations
                ++ ["Documents appear compliant. Proceed with submission."]
        | _ :: _ => recommendations
        end in
      ret recommendations
  end.

(** The report dict of the normal path *)
Record ComplianceReport : Type := {
  process : string;
  compliance_status : string;
  checklist_verification : checklist_result;
  documents_analyzed : nat;
  total_issues_found : nat;
  high_severity_issues : nat;
  document_details : list Document;
  recommendations : list string;
  timestamp : string
}.

(** The two shapes of the dict [generate_comprehensive_report] returns *)
Inductive report : Type :=
| ReportError (err_status err_message : string)
| ReportOk (r : ComplianceReport).

(** [sum(len(doc.get("issues", [])) for doc in documents)] *)
Definition count_issues (documents : list Document) : nat :=
  fold_left (fun total doc => total + length (get_issues doc)) documents 0.

(** [sum(1 for doc in documents for issue in ... if ... == "High")] *)
Definition count_high_issues (documents : list Document) : nat :=
  fold_left
    (fun total doc =>
       fold_left (fun total i => if is_high i then total + 1 else total)
         (get_issues doc) total)
    documents 0.

(** The [if / elif / else] that sets [compliance_status] *)
Definition derive_status (total_issues high_severity_issues : nat)
    (checklist_status : string) : string :=
  if (total_issues =? 0)%nat && (checklist_status =? "complete")
  then "Fully Compliant"
  else if (high_severity_issues =? 0)%nat
  then "Partially Compliant"
  else "Non-Compliant".

(** The body of the [try] *)
Definition report_body (documents : list Document) (process_name : string)
    : py ComplianceReport :=
  let uploaded_doc_names := map filename documents in
  checklist_result <- verify_checklist_completeness uploaded_doc_names process_name ;;
  let total_issues := count_issues documents in
  let high_severity_issues := count_high_issues documents in
  let compliance_status :=
    derive_status total_issues high_severity_issues (result_status checklist_result) in
  recommendations <- _generate_recommendations documents checklist_result ;;
  ret {| process := process_name;
         compliance_status := compliance_status;
         checklist_verification := checklist_result;
         documents_analyzed := length documents;
         total_issues_found := total_issues;
         high_severity_issues := high_severity_issues;
         document_details := documents;
         recommendations := recommendations;
         timestamp := "2025-08-10T18:30:00" |}.

(** [try: ... except Exception as e: return {"status": "error", ...}] *)
Definition generate_comprehensive_report (documents : list Document)
    (process_name : string) : report :=
  match report_body documents process_name with
  | inr r => ReportOk r
  | inl e => ReportError "error" (str_exn e)
  end.

End doc_processing.

Import doc_processing.

(* ================================================================== *)
(** * src/adgm_corporate_agent.py, class ADGMCorporateAgent *)
(* ================================================================== *)

Module adgm_corporate_agent.

(** The line feed of ["\n"] *)
Definition nl : string := String (ascii_of_nat 10) EmptyString.

(** [str(i)] on a non-negative [int] *)
Definition str_int (i : nat) : string :=
  NilEmpty.string_of_uint (Nat.to_uint i).

(** The body of [for i, doc in enumerate(..., 1)]; the state is the
    counter and [info]. *)
Definition add_document_line (acc : nat * string) (doc : string) : nat * string :=
  let '(i, info) := acc in
  (S i, (info ++ str_int i ++ ". " ++ doc ++ nl)%string).

(** [get_process_info]: none of the statements of its [try] can raise,
    every key read being a key of each checklist. *)
Definition get_process_info (process_name : string) : string :=
  match get_checklist_for_process process_name with
  | None => "Unknown process: " ++ process_name
  | Some checklist =>
      let info := ("**" ++ process_name ++ "**" ++ nl ++ nl)%string in
      let info :=
        (info ++ "**Description:** " ++ description checklist ++ nl)%string in
      let info :=
        (info ++ "**Priority:** " ++ priority checklist ++ nl ++ nl)%string in
      let info := (info ++ "**Required Documents:**" ++ nl)%string in
      snd (fold_left add_document_line (required_documents checklist) (1, info))
  end.

End adgm_corporate_agent.

Import adgm_corporate_agent.

(* ================================================================== *)
(** * The specification's own wording of some quantities *)
(* ================================================================== *)

Module spec.

(** A required document is matched by an uploaded file name when its
    name occurs in it as a substring, letter case ignored. *)
Definition matches (req_doc uploaded : string) : bool :=
  str_in (lower req_doc) (lower uploaded).

(** A required document is present when some uploaded file name matches. *)
Definition present (uploaded_docs : list string) (req_doc : string) : bool :=
  existsb (matches req_doc) uploaded_docs.

(** [round(100 * present_count / required_count, 2)] computed on the
    exact quotient: the number of hundredths nearest to it, read as the
    nearest float. *)
Definition completeness (present_count required_count : nat) : float :=
  let hundredths :=
    round_half_even (100 * 100 * Z.of_nat present_count) (Z.of_nat required_count) in
  match hundredths with
  | Zpos p => SF2Prim (SFdiv prec emax (S754_finite false p 0) (S754_finite false 100 0))
  | _ => 0%float
  end.

(** All the issues of a list of document analyses, in order. *)
Definition all_issues (documents : list Document) : list Issue :=
  flat_map get_issues documents.

(** The lines ["<filename>: <issue text>"] of the High issues of the
    whole report, in order. *)
Definition high_lines (documents : list Document) : list string :=
  flat_map
    (fun doc =>
       map (fun i => (filename doc ++ ": " ++ issue i)%string)
         (filter is_high (get_issues doc)))
    documents.

(** The four parts of the recommendations, in the order of the
    specification. *)
Definition recommendations (documents : list Document) (c : ChecklistResult)
    : list string :=
  let missing_part :=
    match missing_documents c with
    | [] => []
    | _ :: _ => [missing_line (missing_documents c)]
    end in
  let high_part :=
    match high_lines documents with
    | [] => []
    | _ :: _ =>
        "Address high severity issues immediately" :: firstn 3 (high_lines documents)
    end in
  let package_part :=
    if PrimFloat.ltb (completeness_percentage c) 80%float
    then ["Complete document package for better compliance"]
    else [] in
  match missing_part ++ high_part ++ package_part with
  | [] => ["Documents appear compliant. Proceed with submission."]
  | l => l
  end.

(** No pattern of the detection table matches the lowered content or
    the lowered file name. *)
Definition no_pattern_matches (content filename : string) : bool :=
  forallb
    (fun entry : string * list string =>
       forallb
         (fun pattern =>
            negb (re_search pattern (lower content))
            && negb (re_search pattern (lower filename)))
         (snd entry))
    document_patterns.

(** None of the three secondary keyword pairs is complete in the lowered
    content. *)
Definition no_keyword_pair (content : string) : bool :=
  let c := lower content in
  negb (str_in "clause" c && str_in "company" c)
  && negb (str_in "object" c && str_in "purpose" c)
  && negb (str_in "ownership" c && str_in "percentage" c).

(** [sub] is [l] with some elements left out, the others in their order. *)
Inductive Subseq {A : Type} : list A -> list A -> Prop :=
| Subseq_nil : Subseq [] []
| Subseq_skip (x : A) (sub l : list A) : Subseq sub l -> Subseq sub (x :: l)
| Subseq_keep (x : A) (sub l : list A) : Subseq sub l -> Subseq (x :: sub) (x :: l).

End spec.

(* ================================================================== *)
(** * Auxiliary definitions of the proofs *)
(* ================================================================== *)

(** The percentage the verifier stores, as a function of the two counts *)
Definition stored_percentage (present_count required_count : nat) : float :=
  round ((float_of_nat present_count / float_of_nat required_count) * 100)%float 2.

(** The stored percentages for the sizes of the checklist table, checked
    one by one: they grow with the number of present documents and stay
    between 0 and 100. *)
Definition percentage_table_ok (n : nat) : bool :=
  forallb
    (fun p =>
       PrimFloat.leb 0%float (stored_percentage p n)
       && PrimFloat.leb (stored_percentage p n) 100%float
       && forallb
            (fun q => PrimFloat.leb (stored_percentage p n) (stored_percentage q n))
            (seq p (S n - p)))
    (seq 0 (S n)).

(** An optional issue as the list of issues it contributes *)
Definition to_list {A : Type} (o : option A) : list A :=
  match o with
  | Some a => [a]
  | None => []
  end.

(** The issues of a list that carry a given section label *)
Definition issues_of_section (name : string) (l : list Issue) : list Issue :=
  filter (fun i => section i =? name) l.

(** An analysis whose issues are those the evaluator finds in an empty
    document of an unknown type: no jurisdiction clause (High), no
    signature (Medium), no structure (Low). *)
Definition empty_document_analysis : Document :=
  {| filename := "empty.docx";
     issues := Some (check_adgm_compliance "" "Unknown Document") |}.

(** The truth values a type's score depends on: for each pattern
    whether it matches the content and whether it matches the file
    name, then whether the keyword bonus applies. *)
Definition keyword_bonus (doc_type content_lower : string) : bool :=
  if doc_type =? "Articles of Association" then
    str_in "clause" content_lower && str_in "company" content_lower
  else if doc_type =? "Memorandum of Association" then
    str_in "object" content_lower && str_in "purpose" content_lower
  else if doc_type =? "UBO Declaration" then
    str_in "ownership" content_lower && str_in "percentage" content_lower
  else false.

Definition score_bits (content_lower filename_lower doc_type : string)
    (patterns : list string) : list bool :=
  flat_map
    (fun pattern =>
       [re_search pattern content_lower; re_search pattern filename_lower])
    patterns
  ++ [keyword_bonus doc_type content_lower].

(** The score as a function of those truth values *)
Fixpoint score_of_bits (bits : list bool) (score : float) : float :=
  match bits with
  | in_content :: in_filename :: rest =>
      let score := if in_content then (score + 0.6)%float else score in
      let score := if in_filename then (score + 0.4)%float else score in
      score_of_bits rest score
  | [bonus] => if bonus then (score + 0.2)%float else score
  | [] => score
  end.

(** All lists of [n] truth values *)
Fixpoint all_bits (n : nat) : list (list bool) :=
  match n with
  | O => [[]]
  | S n' => map (cons true) (all_bits n') ++ map (cons false) (all_bits n')
  end.

(** The scores a type with four patterns can reach *)
Definition score_values : list float :=
  map (fun bits => score_of_bits bits 0%float) (all_bits 9).

(** An integer that stands for a score in comparisons: the mantissa
    shifted by the exponent, which is the exact value times 2^64 for
    the floats that are multiples of 2^-64. *)
Definition score_key (x : float) : Z :=
  match Prim2SF x with
  | S754_finite false m e => Z.shiftl (Z.pos m) (e + 64)
  | S754_finite true m e => (- Z.shiftl (Z.pos m) (e + 64))%Z
  | _ => 0%Z
  end.

(** On the scores a type can reach, the float comparisons are the
    comparisons of the keys, no key is negative, only the score 0.0 has
    the key 0, and the confidence derived from a score lies between 0
    and 1 and is above 0 exactly when the key is. *)
Definition score_value_ok (keyed : list (float * Z)) (ak : float * Z) : bool :=
  let '(a, ka) := ak in
  (0 <=? ka)%Z
  && implb (ka =? 0)%Z
       (match Prim2SF a with S754_zero false => true | _ => false end)
  && PrimFloat.leb 0%float (Py.min a 1%float)
  && PrimFloat.leb (Py.min a 1%float) 1%float
  && Bool.eqb (PrimFloat.ltb 0%float (Py.min a 1%float)) (0 <? ka)%Z
  && forallb
       (fun bk : float * Z =>
          Bool.eqb (PrimFloat.ltb a (fst bk)) (ka <? snd bk)%Z
          && Bool.eqb (PrimFloat.leb a (fst bk)) (ka <=? snd bk)%Z)
       keyed.

(** The scores with their keys *)
Definition keyed_scores : list (float * Z) :=
  map (fun a => (a, score_key a)) score_values.

(** The score of an entry of the detection table on a document *)
Definition entry_score (content_lower filename_lower : string)
    (entry : string * list string) : float :=
  type_score content_lower filename_lower (fst entry) (snd entry).

(** What the loop of [detect_document_type] has established once it has
    gone through [processed]: with no winner yet the best score is still
    0.0 and no score seen was above it; otherwise the winner is an entry
    seen, the best score is its score and is above 0, the entries before
    it score strictly less and the entries after it score no more. *)
Definition winner_inv (content_lower filename_lower : string)
    (processed : list (string * list string))
    (best : option string * float) : Prop :=
  In (snd best) score_values
  /\ match fst best with
     | None =>
         snd best = 0%float
         /\ forall e, In e processed ->
                      (score_key (entry_score content_lower filename_lower e) <= 0)%Z
     | Some doc_type =>
         exists before patterns after,
           processed = before ++ (doc_type, patterns) :: after
           /\ snd best = type_score content_lower filename_lower doc_type patterns
           /\ (0 < score_key (snd best))%Z
           /\ (forall e, In e before ->
                  (score_key (entry_score content_lower filename_lower e)
                   < score_key (snd best))%Z)
           /\ (forall e, In e after ->
                  (score_key (entry_score content_lower filename_lower e)
                   <= score_key (snd best))%Z)
     end.

(** The category [detect_document_type] derives from [best_match] *)
Definition category_of (best_match : option string) : string :=
  if match_in best_match
       ["Articles of Association"; "Memorandum of Association"; "UBO Declaration"]
  then "Company Incorporation"
  else if match_in best_match ["Employment Contract"; "Confidentiality Agreement"]
  then "Employment"
  else if match_in best_match ["Compliance Manual"; "Risk Management Policy"]
  then "Compliance"
  else "General Legal".

(** A score whose key is 0 has no truth value set. *)
Definition zero_key_bits_ok : bool :=
  forallb
    (fun bits =>
       implb (score_key (score_of_bits bits 0%float) <=? 0)%Z
         (negb (existsb (fun b : bool => b) bits)))
    (all_bits 9).

(** The numbered lines [get_process_info] writes for a list of
    documents, the first one numbered [i] *)
Fixpoint numbered_lines (i : nat) (docs : list string) : string :=
  match docs with
  | [] => ""
  | doc :: rest =>
      (str_int i ++ ". " ++ doc ++ nl) ++ numbered_lines (S i) rest
  end.

(* ================================================================== *)
(** * Properties of the checklist verifier *)
(* ================================================================== *)

Lemma classify_required_fold (uploaded_doc_names : list string)
    (required_docs missing_docs present_docs : list string) :
  fold_left (classify_required uploaded_doc_names) required_docs
    (missing_docs, present_docs)
  = (missing_docs
     ++ filter (fun d => negb (is_uploaded uploaded_doc_names d)) required_docs,
     present_docs ++ filter (is_uploaded uploaded_doc_names) required_docs).
Proof.
  revert missing_docs present_docs.
  induction required_docs as [|d rest IH]; intros missing_docs present_docs; simpl.
  - now rewrite !app_nil_r.
  - destruct (is_uploaded uploaded_doc_names d); simpl;
      rewrite IH; now rewrite <- app_assoc.
Qed.

Lemma filter_Subseq {A : Type} (p : A -> bool) (l : list A) :
  spec.Subseq (filter p l) l.
Proof.
  induction l as [|x l IH]; simpl.
  - constructor.
  - destruct (p x); now constructor.
Qed.

Lemma filter_split_length {A : Type} (p : A -> bool) (l : list A) :
  length (filter p l) + length (filter (fun x => negb (p x)) l) = length l.
Proof.
  induction l as [|x l IH]; simpl; [reflexivity|].
  destruct (p x); simpl; lia.
Qed.

Lemma filter_length_le {A : Type} (p q : A -> bool) (l : list A) :
  (forall x, In x l -> p x = true -> q x = true) ->
  length (filter p l) <= length (filter q l).
Proof.
  induction l as [|x l IH]; intros Hpq; simpl; [lia|].
  assert (Hl : length (filter p l) <= length (filter q l)).
  { apply IH. intros y Hy. apply Hpq. now right. }
  destruct (p x) eqn:Hp.
  - rewrite (Hpq x (or_introl eq_refl) Hp). simpl. lia.
  - destruct (q x); simpl; lia.
Qed.

Lemma dict_get_None {V : Type} (d : list (string * V)) (key : string) :
  dict_get d key = None <-> ~ In key (map fst d).
Proof.
  induction d as [|[k v] d IH]; simpl.
  - tauto.
  - destruct (String.eqb_spec k key) as [->|Hne].
    + split; [discriminate | intros H; exfalso; apply H; now left].
    + rewrite IH. tauto.
Qed.

Lemma known_process (process_name : string) :
  In process_name get_all_processes ->
  exists c, get_checklist_for_process process_name = Some c.
Proof.
  intros Hin. unfold get_checklist_for_process.
  destruct (dict_get ADGM_CHECKLISTS process_name) as [c|] eqn:E.
  - now exists c.
  - exfalso. apply dict_get_None in E. now apply E.
Qed.

Lemma known_checklist_size (process_name : string) (c : Checklist) :
  get_checklist_for_process process_name = Some c ->
  In (length (required_documents c)) [5; 7; 8].
Proof.
  unfold get_checklist_for_process, ADGM_CHECKLISTS. cbn [dict_get].
  repeat match goal with
         | |- context [String.eqb ?a process_name] =>
             destruct (String.eqb a process_name)
         end;
    intros H; inversion H; subst; simpl; tauto.
Qed.

(** What the verifier returns on a known process, in closed form. *)
Lemma verify_known (uploaded_docs : list string) (process_name : string)
    (c : Checklist) :
  get_checklist_for_process process_name = Some c ->
  let required_docs := required_documents c in
  let present_docs := filter (is_uploaded (map lower uploaded_docs)) required_docs in
  let missing_docs :=
    filter (fun d => negb (is_uploaded (map lower uploaded_docs) d)) required_docs in
  verify_checklist_completeness uploaded_docs process_name
  = inr (ChecklistOk
           {| checklist.process := process_name;
              required_count := length required_docs;
              uploaded_count := length present_docs;
              missing_count := length missing_docs;
              completeness_percentage :=
                stored_percentage (length present_docs) (length required_docs);
              present_documents := present_docs;
              missing_documents := missing_docs;
              status := match missing_docs with
                        | [] => "complete"
                        | _ :: _ => "incomplete"
                        end |}).
Proof.
  intros Hget required_docs present_docs missing_docs.
  pose proof (known_checklist_size _ _ Hget) as Hsize.
  unfold verify_checklist_completeness. rewrite Hget.
  rewrite classify_required_fold. cbn [app].
  fold required_docs present_docs missing_docs.
  destruct (length required_docs) as [|n] eqn:Hn.
  - exfalso. unfold required_docs in Hn. rewrite Hn in Hsize.
    destruct Hsize as [H|[H|[H|[]]]]; discriminate.
  - reflexivity.
Qed.

Lemma is_uploaded_present (uploaded_docs : list string) (req_doc : string) :
  is_uploaded (map lower uploaded_docs) req_doc = spec.present uploaded_docs req_doc.
Proof.
  unfold is_uploaded, spec.present, spec.matches.
  induction uploaded_docs as [|u rest IH]; simpl; [reflexivity|].
  now rewrite IH.
Qed.

Lemma percentage_table :
  forallb percentage_table_ok [5; 7; 8] = true.
Proof. vm_compute. reflexivity. Qed.

Lemma percentage_facts (n p : nat) :
  In n [5; 7; 8] -> p <= n ->
  PrimFloat.leb 0%float (stored_percentage p n) = true
  /\ PrimFloat.leb (stored_percentage p n) 100%float = true
  /\ forall q, p <= q <= n ->
       PrimFloat.leb (stored_percentage p n) (stored_percentage q n) = true.
Proof.
  intros Hn Hp.
  pose proof percentage_table as T.
  rewrite forallb_forall in T. specialize (T n Hn).
  unfold percentage_table_ok in T. rewrite forallb_forall in T.
  assert (Hin : In p (seq 0 (S n))) by (apply in_seq; lia).
  specialize (T p Hin).
  repeat rewrite andb_true_iff in T.
  destruct T as [[T3 T4] T5].
  repeat split; try assumption.
  intros q Hq. rewrite forallb_forall in T5. apply T5. apply in_seq. lia.
Qed.

(** On the sizes of the table the stored percentage is the exact
    quotient rounded to two decimals, and also the float expression
    [round(100 * p / n, 2)]. *)
Lemma percentage_exact (n p : nat) :
  In n [5; 7; 8] -> p <= n ->
  stored_percentage p n = spec.completeness p n
  /\ stored_percentage p n
     = round (float_of_nat (100 * p) / float_of_nat n)%float 2.
Proof.
  intros Hn Hp.
  destruct Hn as [<-|[<-|[<-|[]]]];
    do 9 (destruct p as [|p]; [split; vm_compute; reflexivity|]);
    exfalso; lia.
Qed.

Lemma status_complete_iff (missing_docs : list string) :
  match missing_docs with
  | [] => "complete"
  | _ :: _ => "incomplete"
  end = "complete" <-> missing_docs = [].
Proof.
  destruct missing_docs; split; intros H; try reflexivity; discriminate.
Qed.

(** C10.  On a known process the result partitions the required
    documents: no name is both present and missing, each required name is
    in one of the two lists, both lists keep the order of the required
    list, the three counts are the three lengths, the present and the
    missing counts add up to the required count, and the status is
    ["complete"] exactly when nothing is missing. *)
Theorem checklist_partition (uploaded_docs : list string) (process_name : string)
    (c : Checklist) :
  get_checklist_for_process process_name = Some c ->
  exists r,
    verify_checklist_completeness uploaded_docs process_name = inr (ChecklistOk r)
    /\ (forall d, In d (present_documents r) -> ~ In d (missing_documents r))
    /\ (forall d, In d (required_documents c)
                  <-> In d (present_documents r) \/ In d (missing_documents r))
    /\ spec.Subseq (present_documents r) (required_documents c)
    /\ spec.Subseq (missing_documents r) (required_documents c)
    /\ required_count r = length (required_documents c)
    /\ uploaded_count r = length (present_documents r)
    /\ missing_count r = length (missing_documents r)
    /\ uploaded_count r + missing_count r = required_count r
    /\ (status r = "complete" <-> missing_documents r = []).
Proof.
  intros Hget. eexists. split; [apply (verify_known _ _ _ Hget)|].
  cbn [present_documents missing_documents required_count uploaded_count
       missing_count status].
  set (kept := is_uploaded (map lower uploaded_docs)).
  repeat split.
  - intros d Hp Hm. apply filter_In in Hp, Hm.
    destruct Hp as [_ Hp], Hm as [_ Hm]. rewrite Hp in Hm. discriminate.
  - intros Hd. destruct (kept d) eqn:E.
    + left. apply filter_In. now split.
    + right. apply filter_In. split; [assumption|]. now rewrite E.
  - intros [Hd|Hd]; apply filter_In in Hd; tauto.
  - apply filter_Subseq.
  - apply filter_Subseq.
  - apply filter_split_length.
  - apply status_complete_iff.
  - apply status_complete_iff.
Qed.

Lemma checklist_partition_witness :
  exists c,
    get_checklist_for_process "Employment" = Some c
    /\ exists r,
         verify_checklist_completeness ["Employee Handbook v3.docx"] "Employment"
         = inr (ChecklistOk r)
         /\ uploaded_count r + missing_count r = required_count r
         /\ (status r = "complete" <-> missing_documents r = []).
Proof.
  eexists. split; [reflexivity|].
  destruct (checklist_partition ["Employee Handbook v3.docx"] "Employment" _ eq_refl)
    as (r & Hr & _ & _ & _ & _ & _ & _ & _ & Hsum & Hst).
  exists r. repeat split; try assumption; apply Hst.
Defined.

(** C4.  On a known process a required document is present exactly
    when its name, letter case ignored, is a substring of some uploaded
    file name; the present count is the number of such required
    documents; and the percentage is 100 times present over required,
    rounded to two decimals.  With nothing uploaded, ["Employment"] has
    0 present and 5 missing documents, percentage 0.0 and status
    ["incomplete"]. *)
Theorem checklist_matching_and_percentage :
  (forall (uploaded_docs : list string) (process_name : string) (c : Checklist),
      get_checklist_for_process process_name = Some c ->
      exists r,
        verify_checklist_completeness uploaded_docs process_name
        = inr (ChecklistOk r)
        /\ (forall d, In d (present_documents r)
                      <-> In d (required_documents c)
                          /\ exists u, In u uploaded_docs /\ spec.matches d u = true)
        /\ present_documents r
           = filter (spec.present uploaded_docs) (required_documents c)
        /\ uploaded_count r
           = length (filter (spec.present uploaded_docs) (required_documents c))
        /\ required_count r = length (required_documents c)
        /\ completeness_percentage r
           = spec.completeness (uploaded_count r) (required_count r)
        /\ completeness_percentage r
           = round (float_of_nat (100 * uploaded_count r)
                    / float_of_nat (required_count r))%float 2)
  /\ exists r,
       verify_checklist_completeness [] "Employment" = inr (ChecklistOk r)
       /\ present_documents r = []
       /\ uploaded_count r = 0
       /\ length (missing_documents r) = 5
       /\ missing_count r = 5
       /\ completeness_percentage r = 0%float
       /\ status r = "incomplete".
Proof.
  split.
  - intros uploaded_docs process_name c Hget.
    eexists. split; [apply (verify_known _ _ _ Hget)|].
    cbn [present_documents required_count uploaded_count completeness_percentage].
    assert (Hf : filter (is_uploaded (map lower uploaded_docs)) (required_documents c)
                 = filter (spec.present uploaded_docs) (required_documents c)).
    { apply filter_ext. intros d. apply is_uploaded_present. }
    rewrite Hf.
    pose proof (known_checklist_size _ _ Hget) as Hsize.
    assert (Hle : length (filter (spec.present uploaded_docs) (required_documents c))
                  <= length (required_documents c)).
    { pose proof (filter_split_length (spec.present uploaded_docs)
                    (required_documents c)). lia. }
    destruct (percentage_exact _ _ Hsize Hle) as [E1 E2].
    split; [|repeat split; try assumption; reflexivity].
    intros d. rewrite filter_In. unfold spec.present.
    rewrite existsb_exists. tauto.
  - eexists. split; [vm_compute; reflexivity|].
    cbn. repeat split; reflexivity.
Qed.

Lemma checklist_matching_and_percentage_witness :
  exists c,
    get_checklist_for_process "Company Incorporation" = Some c
    /\ exists r,
         verify_checklist_completeness
           ["Draft_Articles of Association_v2.docx"] "Company Incorporation"
         = inr (ChecklistOk r)
         /\ completeness_percentage r
            = spec.completeness (uploaded_count r) (required_count r).
Proof.
  eexists. split; [reflexivity|].
  destruct (proj1 checklist_matching_and_percentage
              ["Draft_Articles of Association_v2.docx"] "Company Incorporation"
              _ eq_refl)
    as (r & Hr & _ & _ & _ & _ & Hpct & _).
  exists r. split; assumption.
Defined.

Lemma verify_ok_known (uploaded_docs : list string) (process_name : string)
    (r : ChecklistResult) :
  verify_checklist_completeness uploaded_docs process_name = inr (ChecklistOk r) ->
  exists c, get_checklist_for_process process_name = Some c.
Proof.
  intros H. destruct (get_checklist_for_process process_name) as [c|] eqn:E.
  - now exists c.
  - unfold verify_checklist_completeness in H. rewrite E in H. discriminate.
Qed.

(** C9.  On a known process, when every required document found
    present for a first list of uploads is also found present for a
    second one, the percentage of the second result is at least that of
    the first; and whatever the input, a percentage that is computed
    lies between 0 and 100. *)
Theorem completeness_monotone_bounded :
  (forall (process_name : string) (c : Checklist) (uploaded1 uploaded2 : list string),
      get_checklist_for_process process_name = Some c ->
      exists r1 r2,
        verify_checklist_completeness uploaded1 process_name = inr (ChecklistOk r1)
        /\ verify_checklist_completeness uploaded2 process_name = inr (ChecklistOk r2)
        /\ ((forall d, In d (present_documents r1) -> In d (present_documents r2)) ->
            PrimFloat.leb (completeness_percentage r1) (completeness_percentage r2)
            = true))
  /\ (forall (uploaded_docs : list string) (process_name : string)
             (r : ChecklistResult),
         verify_checklist_completeness uploaded_docs process_name
         = inr (ChecklistOk r) ->
         PrimFloat.leb 0%float (completeness_percentage r) = true
         /\ PrimFloat.leb (completeness_percentage r) 100%float = true).
Proof.
  split.
  - intros process_name c uploaded1 uploaded2 Hget.
    do 2 eexists.
    split; [apply (verify_known uploaded1 _ _ Hget)|].
    split; [apply (verify_known uploaded2 _ _ Hget)|].
    cbn [present_documents completeness_percentage].
    intros Hsub.
    pose proof (known_checklist_size _ _ Hget) as Hsize.
    set (k1 := is_uploaded (map lower uploaded1)) in *.
    set (k2 := is_uploaded (map lower uploaded2)) in *.
    assert (H12 : length (filter k1 (required_documents c))
                  <= length (filter k2 (required_documents c))).
    { apply filter_length_le. intros d Hd Hk.
      assert (Hin : In d (filter k2 (required_documents c))).
      { apply Hsub. apply filter_In. now split. }
      apply filter_In in Hin. tauto. }
    pose proof (filter_split_length k2 (required_documents c)) as H2.
    destruct (percentage_facts (length (required_documents c))
                (length (filter k1 (required_documents c))) Hsize) as (_ & _ & Hm);
      [lia|].
    apply Hm. lia.
  - intros uploaded_docs process_name r Hr.
    destruct (verify_ok_known _ _ _ Hr) as [c Hget].
    rewrite (verify_known _ _ _ Hget) in Hr.
    injection Hr as <-. cbn [completeness_percentage].
    pose proof (known_checklist_size _ _ Hget) as Hsize.
    set (k := is_uploaded (map lower uploaded_docs)).
    pose proof (filter_split_length k (required_documents c)) as Hk.
    destruct (percentage_facts (length (required_documents c))
                (length (filter k (required_documents c))) Hsize) as (H0 & H100 & _);
      [lia|].
    now split.
Qed.

Lemma completeness_monotone_bounded_witness :
  exists c,
    get_checklist_for_process "Licensing" = Some c
    /\ exists r1 r2,
         verify_checklist_completeness ["compliance manual.docx"] "Licensing"
         = inr (ChecklistOk r1)
         /\ verify_checklist_completeness
              ["Compliance Manual.docx"; "Financial Projections 2025.docx"]
              "Licensing"
            = inr (ChecklistOk r2)
         /\ (forall d, In d (present_documents r1) -> In d (present_documents r2))
         /\ PrimFloat.leb (completeness_percentage r1) (completeness_percentage r2)
            = true
         /\ PrimFloat.leb 0%float (completeness_percentage r1) = true
         /\ PrimFloat.leb (completeness_percentage r1) 100%float = true.
Proof.
  eexists. split; [reflexivity|].
  destruct (proj1 completeness_monotone_bounded "Licensing" _
              ["compliance manual.docx"]
              ["Compliance Manual.docx"; "Financial Projections 2025.docx"]
              eq_refl)
    as (r1 & r2 & H1 & H2 & Hmono).
  exists r1, r2.
  assert (Hsub : forall d, In d (present_documents r1) -> In d (present_documents r2)).
  { assert (E1 : present_documents r1 = ["Compliance Manual"]).
    { vm_compute in H1. injection H1 as <-. reflexivity. }
    assert (E2 : present_documents r2 = ["Financial Projections"; "Compliance Manual"]).
    { vm_compute in H2. injection H2 as <-. reflexivity. }
    rewrite E1, E2. simpl. tauto. }
  destruct (proj2 completeness_monotone_bounded _ _ _ H1) as [Hlo Hhi].
  repeat split; try assumption. now apply Hmono.
Defined.

(* ================================================================== *)
(** * Properties of the report aggregator *)
(* ================================================================== *)

Lemma count_issues_fold (documents : list Document) (total : nat) :
  fold_left (fun total doc => total + length (get_issues doc)) documents total
  = total + length (spec.all_issues documents).
Proof.
  revert total. induction documents as [|doc rest IH]; intros total; simpl.
  - lia.
  - rewrite IH, length_app. lia.
Qed.

Lemma count_high_inner (l : list Issue) (total : nat) :
  fold_left (fun total i => if is_high i then total + 1 else total) l total
  = total + length (filter is_high l).
Proof.
  revert total. induction l as [|i l IH]; intros total; simpl.
  - lia.
  - rewrite IH. destruct (is_high i); simpl; lia.
Qed.

Lemma count_high_fold (documents : list Document) (total : nat) :
  fold_left
    (fun total doc =>
       fold_left (fun total i => if is_high i then total + 1 else total)
         (get_issues doc) total)
    documents total
  = total + length (filter is_high (spec.all_issues documents)).
Proof.
  revert total. induction documents as [|doc rest IH]; intros total; simpl.
  - lia.
  - rewrite IH, count_high_inner, filter_app, length_app. lia.
Qed.

Lemma count_issues_all (documents : list Document) :
  count_issues documents = length (spec.all_issues documents).
Proof. unfold count_issues. now rewrite count_issues_fold. Qed.

Lemma count_high_issues_all (documents : list Document) :
  count_high_issues documents = length (filter is_high (spec.all_issues documents)).
Proof. unfold count_high_issues. now rewrite count_high_fold. Qed.

Lemma high_le_total (documents : list Document) :
  count_high_issues documents <= count_issues documents.
Proof.
  rewrite count_issues_all, count_high_issues_all.
  pose proof (filter_split_length is_high (spec.all_issues documents)). lia.
Qed.

Lemma collect_high_inner (name : string) (l : list Issue) (acc : list string) :
  fold_left
    (fun high_issues i =>
       if is_high i
       then high_issues ++ [(name ++ ": " ++ issue i)%string]
       else high_issues)
    l acc
  = acc ++ map (fun i => (name ++ ": " ++ issue i)%string) (filter is_high l).
Proof.
  revert acc. induction l as [|i l IH]; intros acc; simpl.
  - now rewrite app_nil_r.
  - rewrite IH. destruct (is_high i); simpl; [|reflexivity].
    now rewrite <- app_assoc.
Qed.

Lemma collect_high_fold (documents : list Document) (acc : list string) :
  fold_left
    (fun high_issues doc =>
       fold_left
         (fun high_issues i =>
            if is_high i
            then high_issues ++ [(filename doc ++ ": " ++ issue i)%string]
            else high_issues)
         (get_issues doc) high_issues)
    documents acc
  = acc ++ spec.high_lines documents.
Proof.
  revert acc. induction documents as [|doc rest IH]; intros acc; simpl.
  - now rewrite app_nil_r.
  - rewrite IH, collect_high_inner. now rewrite <- app_assoc.
Qed.

Lemma collect_high_issues_lines (documents : list Document) :
  collect_high_issues documents = spec.high_lines documents.
Proof. unfold collect_high_issues. now rewrite collect_high_fold. Qed.

Lemma generate_recommendations_parts (documents : list Document)
    (c : ChecklistResult) :
  _generate_recommendations documents (ChecklistOk c)
  = inr (spec.recommendations documents c).
Proof.
  unfold _generate_recommendations, spec.recommendations, ret.
  rewrite collect_high_issues_lines.
  destruct (missing_documents c) as [|m ms];
    destruct (spec.high_lines documents) as [|h hs];
    destruct (PrimFloat.ltb (completeness_percentage c) 80%float);
    simpl; rewrite ?app_nil_r; reflexivity.
Qed.

(** The three detail lines are counted over the whole report: two
    documents with two High issues each give three lines, not four. *)
Example recommendations_truncate_globally :
  let high (text : string) :=
    {| issue := text; severity := Some "High"; suggestion := "";
       regulation := ""; section := "" |} in
  let documents :=
    [ {| filename := "a.docx"; issues := Some [high "a1"; high "a2"] |};
      {| filename := "b.docx"; issues := Some [high "b1"; high "b2"] |} ] in
  forall c,
    missing_documents c = [] ->
    PrimFloat.ltb (completeness_percentage c) 80%float = false ->
    _generate_recommendations documents (ChecklistOk c)
    = inr [ "Address high severity issues immediately";
            "a.docx: a1"; "a.docx: a2"; "b.docx: b1" ].
Proof.
  intros high documents c Hm Hp. rewrite generate_recommendations_parts.
  unfold spec.recommendations. rewrite Hm, Hp. reflexivity.
Qed.

(** C7.  On a valid checklist result the recommendations are, in this
    order: the line listing the missing documents when some are missing;
    when the report has High issues, the header followed by the first
    three lines ["<filename>: <issue text>"] of the High issues of all
    the documents taken together, so at most three such lines for the
    whole report; the complete-the-package line when the percentage is
    below 80; and the affirmative line, alone, exactly when the three
    parts before it are empty. *)
Theorem recommendations_order (documents : list Document) (c : ChecklistResult) :
  let missing_part :=
    match missing_documents c with
    | [] => []
    | _ :: _ => [missing_line (missing_documents c)]
    end in
  let high_lines :=
    flat_map
      (fun doc =>
         map (fun i => (filename doc ++ ": " ++ issue i)%string)
           (filter is_high (get_issues doc)))
      documents in
  let high_part :=
    match high_lines with
    | [] => []
    | _ :: _ => "Address high severity issues immediately" :: firstn 3 high_lines
    end in
  let package_part :=
    if PrimFloat.ltb (completeness_percentage c) 80%float
    then ["Complete document package for better compliance"]
    else [] in
  let affirmative := "Documents appear compliant. Proceed with submission." in
  exists result,
    _generate_recommendations documents (ChecklistOk c) = inr result
    /\ result = match missing_part ++ high_part ++ package_part with
                | [] => [affirmative]
                | l => l
                end
    /\ length high_part <= 4
    /\ (result = [affirmative]
        <-> missing_part = [] /\ high_part = [] /\ package_part = []).
Proof.
  intros missing_part high_lines high_part package_part affirmative.
  eexists. split; [apply generate_recommendations_parts|].
  unfold spec.recommendations.
  change (spec.high_lines documents) with high_lines.
  fold missing_part high_part package_part affirmative.
  split; [reflexivity|]. split.
  - unfold high_part. destruct high_lines as [|h hs]; cbn [length]; [lia|].
    pose proof (firstn_le_length 3 (h :: hs)). lia.
  - unfold missing_part, high_part, package_part, affirmative.
    destruct (missing_documents c) as [|m ms];
      destruct high_lines as [|h hs];
      destruct (PrimFloat.ltb (completeness_percentage c) 80%float);
      simpl; split;
      try (intros H; discriminate H);
      try (intros (H1 & H2 & H3); discriminate);
      try (intros _; repeat split; reflexivity);
      try reflexivity.
Qed.

(** The report of a known process, in closed form. *)
Lemma report_known (documents : list Document) (process_name : string) :
  In process_name get_all_processes ->
  exists cr,
    verify_checklist_completeness (map filename documents) process_name
    = inr (ChecklistOk cr)
    /\ generate_comprehensive_report documents process_name
       = ReportOk
           {| process := process_name;
              compliance_status :=
                derive_status (count_issues documents) (count_high_issues documents)
                  (status cr);
              checklist_verification := ChecklistOk cr;
              documents_analyzed := length documents;
              total_issues_found := count_issues documents;
              high_severity_issues := count_high_issues documents;
              document_details := documents;
              recommendations := spec.recommendations documents cr;
              timestamp := "2025-08-10T18:30:00" |}.
Proof.
  intros Hin. destruct (known_process _ Hin) as [c Hget].
  pose proof (verify_known (map filename documents) _ _ Hget) as Hv.
  cbv zeta in Hv. eexists. split; [exact Hv|].
  unfold generate_comprehensive_report, report_body.
  rewrite Hv. cbn [bind]. rewrite generate_recommendations_parts.
  reflexivity.
Qed.

(** The report of an unknown process: the verifier answers with its
    error dict, the recommendations then fail on the key
    ["missing_documents"], and the handler turns that into the error
    report. *)
Lemma report_unknown (documents : list Document) (process_name : string) :
  ~ In process_name get_all_processes ->
  generate_comprehensive_report documents process_name
  = ReportError "error" "'missing_documents'".
Proof.
  intros Hnot.
  assert (Hget : get_checklist_for_process process_name = None).
  { apply dict_get_None. exact Hnot. }
  unfold generate_comprehensive_report, report_body, verify_checklist_completeness.
  rewrite Hget. reflexivity.
Qed.

Lemma derive_status_cases (total high : nat) (checklist_status : string) :
  let s := derive_status total high checklist_status in
  (s = "Fully Compliant" <-> total = 0 /\ checklist_status = "complete")
  /\ (s = "Partially Compliant"
      <-> ~ (total = 0 /\ checklist_status = "complete") /\ high = 0)
  /\ (s = "Non-Compliant"
      <-> ~ (total = 0 /\ checklist_status = "complete") /\ high <> 0).
Proof.
  unfold derive_status.
  destruct (Nat.eqb_spec total 0) as [Ht|Ht];
    destruct (String.eqb_spec checklist_status "complete") as [Hc|Hc];
    destruct (Nat.eqb_spec high 0) as [Hh|Hh]; cbn [andb];
    repeat split; intros; try discriminate; try tauto; try reflexivity;
    try (exfalso; tauto).
Qed.

(** C5.  For a process name that is not in the checklist table the
    verifier returns, without raising, the dict with status ["error"] and
    a message, which has no percentage; a normal result never has that
    status; and the aggregator returns, without raising, its error
    report with status ["error"] and a message. *)
Theorem unknown_process_is_error_shaped (process_name : string) :
  ~ In process_name get_all_processes ->
  (forall uploaded_docs,
      verify_checklist_completeness uploaded_docs process_name
      = inr (ChecklistError "error" ("Unknown process: " ++ process_name)))
  /\ (forall uploaded_docs known_name r,
         verify_checklist_completeness uploaded_docs known_name
         = inr (ChecklistOk r) ->
         status r <> "error")
  /\ (forall documents,
         generate_comprehensive_report documents process_name
         = ReportError "error" "'missing_documents'").
Proof.
  intros Hnot. split; [|split].
  - intros uploaded_docs.
    assert (Hget : get_checklist_for_process process_name = None).
    { apply dict_get_None. exact Hnot. }
    unfold verify_checklist_completeness. rewrite Hget. reflexivity.
  - intros uploaded_docs known_name r Hr.
    destruct (verify_ok_known _ _ _ Hr) as [c Hget].
    rewrite (verify_known _ _ _ Hget) in Hr. injection Hr as <-.
    cbn [status].
    destruct (filter _ (required_documents c)); discriminate.
  - intros documents. now apply report_unknown.
Qed.

Lemma unknown_process_is_error_shaped_witness :
  ~ In "Nonexistent Process" get_all_processes
  /\ verify_checklist_completeness ["a.docx"] "Nonexistent Process"
     = inr (ChecklistError "error" "Unknown process: Nonexistent Process")
  /\ generate_comprehensive_report [] "Nonexistent Process"
     = ReportError "error" "'missing_documents'".
Proof.
  assert (Hnot : ~ In "Nonexistent Process" get_all_processes).
  { unfold get_all_processes. simpl.
    intros [H|[H|[H|[H|[H|[]]]]]]; discriminate. }
  split; [exact Hnot|].
  destruct (unknown_process_is_error_shaped "Nonexistent Process" Hnot)
    as (Hv & _ & Hr).
  split; [apply Hv | apply Hr].
Defined.

(** C3, as the code has it.  For a known process name the aggregator
    returns a report whose totals count the issues and the High issues
    of all the documents, and whose status is ["Fully Compliant"] exactly
    when there is no issue and the checklist status is ["complete"],
    otherwise ["Partially Compliant"] exactly when there is no High
    issue, otherwise ["Non-Compliant"]; with a High issue it is
    ["Non-Compliant"]. *)
Theorem report_status_derivation (documents : list Document) (process_name : string) :
  In process_name get_all_processes ->
  exists r,
    generate_comprehensive_report documents process_name = ReportOk r
    /\ verify_checklist_completeness (map filename documents) process_name
       = inr (checklist_verification r)
    /\ total_issues_found r = length (spec.all_issues documents)
    /\ high_severity_issues r = length (filter is_high (spec.all_issues documents))
    /\ (compliance_status r = "Fully Compliant"
        <-> total_issues_found r = 0
            /\ result_status (checklist_verification r) = "complete")
    /\ (compliance_status r = "Partially Compliant"
        <-> ~ (total_issues_found r = 0
               /\ result_status (checklist_verification r) = "complete")
            /\ high_severity_issues r = 0)
    /\ (compliance_status r = "Non-Compliant"
        <-> ~ (total_issues_found r = 0
               /\ result_status (checklist_verification r) = "complete")
            /\ high_severity_issues r <> 0)
    /\ (0 < high_severity_issues r -> compliance_status r = "Non-Compliant").
Proof.
  intros Hin. destruct (report_known documents _ Hin) as (cr & Hv & Hr).
  eexists. split; [exact Hr|].
  cbn [checklist_verification total_issues_found high_severity_issues
       compliance_status result_status].
  pose proof (derive_status_cases (count_issues documents)
                (count_high_issues documents) (status cr)) as H.
  cbv zeta in H. destruct H as (Hf & Hp & Hn).
  pose proof (high_le_total documents) as Hle.
  split; [exact Hv|].
  split; [apply count_issues_all|].
  split; [apply count_high_issues_all|].
  split; [exact Hf|]. split; [exact Hp|]. split; [exact Hn|].
  intros Hpos. apply Hn. split; lia.
Qed.

Lemma report_status_derivation_witness :
  In "Employment" get_all_processes
  /\ exists r,
       generate_comprehensive_report [empty_document_analysis] "Employment"
       = ReportOk r
       /\ high_severity_issues r = 1
       /\ compliance_status r = "Non-Compliant".
Proof.
  assert (Hin : In "Employment" get_all_processes).
  { unfold get_all_processes. simpl. tauto. }
  split; [exact Hin|].
  destruct (report_status_derivation [empty_document_analysis] "Employment" Hin)
    as (r & Hr & _ & _ & Hhigh & _ & _ & _ & Hnon).
  exists r. split; [exact Hr|].
  assert (H1 : high_severity_issues r = 1) by (rewrite Hhigh; reflexivity).
  split; [exact H1|]. apply Hnon. rewrite H1. lia.
Defined.

(** C3 as stated fails on a process name outside the checklist table:
    with a High issue in the documents the aggregator returns its error
    report, not a report whose status is ["Non-Compliant"]. *)
Lemma report_status_unknown_process_counterexample :
  0 < count_high_issues [empty_document_analysis]
  /\ generate_comprehensive_report [empty_document_analysis] "Nonexistent Process"
     = ReportError "error" "'missing_documents'"
  /\ ~ (exists r,
          generate_comprehensive_report [empty_document_analysis]
            "Nonexistent Process" = ReportOk r
          /\ compliance_status r = "Non-Compliant").
Proof.
  assert (Hr : generate_comprehensive_report [empty_document_analysis]
                 "Nonexistent Process"
               = ReportError "error" "'missing_documents'").
  { apply report_unknown. unfold get_all_processes. simpl.
    intros [H|[H|[H|[H|[H|[]]]]]]; discriminate. }
  split; [vm_compute; lia|].
  split; [exact Hr|].
  intros (r & Hok & _). rewrite Hr in Hok. discriminate.
Qed.

(* ================================================================== *)
(** * Properties of the compliance evaluator *)
(* ================================================================== *)

Section RuleFacts.

Variable rule : Rule.t.
Variable content : string.

Lemma first_forbidden_Some (phrase : string) :
  first_forbidden rule content = Some phrase ->
  In phrase (Rule.forbidden rule) /\ str_in (lower phrase) content = true.
Proof.
  unfold first_forbidden.
  apply (find_some (fun forbidden => str_in (lower forbidden) content)).
Qed.

Lemma first_forbidden_None :
  first_forbidden rule content = None <->
  forall phrase, In phrase (Rule.forbidden rule) ->
                 str_in (lower phrase) content = false.
Proof.
  unfold first_forbidden. split.
  - intros H phrase.
    apply (find_none (fun forbidden => str_in (lower forbidden) content) _ H).
  - intros H. destruct (find _ (Rule.forbidden rule)) as [phrase|] eqn:E;
      [|reflexivity].
    apply (find_some (fun forbidden => str_in (lower forbidden) content)) in E.
    destruct E as [Hin Htrue].
    rewrite (H _ Hin) in Htrue. discriminate.
Qed.

Lemma first_forbidden_found :
  (exists phrase, In phrase (Rule.forbidden rule)
                  /\ str_in (lower phrase) content = true) ->
  exists phrase, first_forbidden rule content = Some phrase.
Proof.
  intros (phrase & Hin & Htrue).
  destruct (first_forbidden rule content) as [g|] eqn:E; [now exists g|].
  rewrite first_forbidden_None in E. rewrite (E _ Hin) in Htrue. discriminate.
Qed.

Lemma any_required_true :
  any_required rule content = true <->
  exists phrase, In phrase (Rule.required rule)
                 /\ str_in (lower phrase) content = true.
Proof.
  unfold any_required.
  apply (existsb_exists (fun required => str_in (lower required) content)).
Qed.

Lemma any_required_false :
  any_required rule content = false <->
  forall phrase, In phrase (Rule.required rule) ->
                 str_in (lower phrase) content = false.
Proof.
  split.
  - intros H phrase Hin. destruct (str_in (lower phrase) content) eqn:E;
      [|reflexivity].
    assert (Ht : any_required rule content = true)
      by (apply any_required_true; eauto).
    rewrite H in Ht. discriminate.
  - intros H. destruct (any_required rule content) eqn:E; [|reflexivity].
    apply any_required_true in E. destruct E as (phrase & Hin & Htrue).
    rewrite (H _ Hin) in Htrue. discriminate.
Qed.

End RuleFacts.

(** The evaluator's list, check by check. *)
Lemma check_adgm_compliance_parts (content document_type : string) :
  check_adgm_compliance content document_type
  = to_list (_check_jurisdiction_compliance (lower content))
    ++ to_list (_check_governing_law_compliance (lower content))
    ++ to_list (_check_signature_compliance (lower content))
    ++ to_list (_check_structure_compliance (lower content) document_type)
    ++ _check_document_specific_compliance (lower content) document_type.
Proof.
  unfold check_adgm_compliance, append_if.
  destruct (_check_jurisdiction_compliance (lower content));
    destruct (_check_governing_law_compliance (lower content));
    destruct (_check_signature_compliance (lower content));
    destruct (_check_structure_compliance (lower content) document_type);
    reflexivity.
Qed.

Lemma issues_of_section_app (name : string) (l1 l2 : list Issue) :
  issues_of_section name (l1 ++ l2)
  = issues_of_section name l1 ++ issues_of_section name l2.
Proof. apply filter_app. Qed.

Lemma issues_of_section_all (name : string) (l : list Issue) :
  (forall i, In i l -> section i = name) -> issues_of_section name l = l.
Proof.
  induction l as [|i l IH]; intros H; simpl; [reflexivity|].
  rewrite (H i (or_introl eq_refl)), String.eqb_refl.
  f_equal. apply IH. intros j Hj. apply H. now right.
Qed.

Lemma issues_of_section_none (name : string) (l : list Issue) :
  (forall i, In i l -> section i <> name) -> issues_of_section name l = [].
Proof.
  induction l as [|i l IH]; intros H; simpl; [reflexivity|].
  destruct (String.eqb_spec (section i) name) as [E|_].
  - exfalso. now apply (H i (or_introl eq_refl)).
  - apply IH. intros j Hj. apply H. now right.
Qed.

Lemma jurisdiction_section (content : string) (i : Issue) :
  In i (to_list (_check_jurisdiction_compliance content)) ->
  section i = "Jurisdiction".
Proof.
  unfold _check_jurisdiction_compliance. cbv zeta.
  destruct (first_forbidden _ content);
    [|destruct (any_required _ content)]; simpl;
    intros H; try contradiction;
    destruct H as [<-|[]]; reflexivity.
Qed.

Lemma governing_law_section (content : string) (i : Issue) :
  In i (to_list (_check_governing_law_compliance content)) ->
  section i = "Governing Law".
Proof.
  unfold _check_governing_law_compliance. cbv zeta.
  destruct (first_forbidden _ content); simpl; intros H; try contradiction;
    destruct H as [<-|[]]; reflexivity.
Qed.

Lemma signature_section (content : string) (i : Issue) :
  In i (to_list (_check_signature_compliance content)) ->
  section i = "Execution".
Proof.
  unfold _check_signature_compliance. cbv zeta.
  destruct (any_required _ content); simpl; intros H; try contradiction;
    destruct H as [<-|[]]; reflexivity.
Qed.

Lemma structure_section (content document_type : string) (i : Issue) :
  In i (to_list (_check_structure_compliance content document_type)) ->
  section i = "Document Requirements".
Proof.
  unfold _check_structure_compliance. cbv zeta.
  destruct (any_required _ content); simpl; intros H; try contradiction;
    destruct H as [<-|[]]; reflexivity.
Qed.

Lemma document_specific_section (content document_type : string) (i : Issue) :
  In i (_check_document_specific_compliance content document_type) ->
  In (section i) ["Share Capital"; "Beneficial Ownership"; "Employment Terms"].
Proof.
  unfold _check_document_specific_compliance. cbv zeta.
  destruct (document_type =? "Articles of Association");
    [|destruct (document_type =? "UBO Declaration");
      [|destruct (document_type =? "Employment Contract")]];
    match goal with
    | |- context [if ?b then _ else _] => destruct b
    | _ => idtac
    end; simpl; intros H; try contradiction;
    destruct H as [<-|[]]; simpl; tauto.
Qed.

(** Only the jurisdiction check labels an issue ["Jurisdiction"], and
    only the governing-law check labels one ["Governing Law"]. *)
Lemma issues_by_section (content document_type : string) :
  issues_of_section "Jurisdiction" (check_adgm_compliance content document_type)
  = to_list (_check_jurisdiction_compliance (lower content))
  /\ issues_of_section "Governing Law" (check_adgm_compliance content document_type)
     = to_list (_check_governing_law_compliance (lower content)).
Proof.
  rewrite check_adgm_compliance_parts, !issues_of_section_app.
  split.
  - rewrite (issues_of_section_all "Jurisdiction"
               (to_list (_check_jurisdiction_compliance (lower content))))
      by apply jurisdiction_section.
    rewrite !issues_of_section_none; [now rewrite app_nil_r|..].
    + intros i Hi E. apply document_specific_section in Hi. rewrite E in Hi.
      simpl in Hi. destruct Hi as [H|[H|[H|[]]]]; discriminate.
    + intros i Hi E. apply structure_section in Hi. rewrite E in Hi. discriminate.
    + intros i Hi E. apply signature_section in Hi. rewrite E in Hi. discriminate.
    + intros i Hi E. apply governing_law_section in Hi. rewrite E in Hi.
      discriminate.
  - rewrite (issues_of_section_all "Governing Law"
               (to_list (_check_governing_law_compliance (lower content))))
      by apply governing_law_section.
    rewrite !issues_of_section_none; [now rewrite app_nil_r|..].
    + intros i Hi E. apply document_specific_section in Hi. rewrite E in Hi.
      simpl in Hi. destruct Hi as [H|[H|[H|[]]]]; discriminate.
    + intros i Hi E. apply structure_section in Hi. rewrite E in Hi. discriminate.
    + intros i Hi E. apply signature_section in Hi. rewrite E in Hi. discriminate.
    + intros i Hi E. apply jurisdiction_section in Hi. rewrite E in Hi.
      discriminate.
Qed.

(** An issue whose text is that of the missing-clause issue can only
    come from the jurisdiction check. *)
Lemma missing_clause_origin (content document_type : string) (j : Issue) :
  In j (check_adgm_compliance content document_type) ->
  issue j = "Missing ADGM jurisdiction clause" ->
  In j (to_list (_check_jurisdiction_compliance (lower content))).
Proof.
  rewrite check_adgm_compliance_parts. intros Hin Htext.
  repeat (apply in_app_or in Hin; destruct Hin as [Hin|Hin]); [exact Hin|..];
    exfalso; revert Hin.
  - unfold _check_governing_law_compliance. cbv zeta.
    destruct (first_forbidden _ (lower content)); simpl; intros H;
      try contradiction; destruct H as [<-|[]]; discriminate.
  - unfold _check_signature_compliance. cbv zeta.
    destruct (any_required _ (lower content)); simpl; intros H;
      try contradiction; destruct H as [<-|[]]; discriminate.
  - unfold _check_structure_compliance. cbv zeta.
    destruct (any_required _ (lower content)); simpl; intros H;
      try contradiction; destruct H as [<-|[]]; discriminate.
  - unfold _check_document_specific_compliance. cbv zeta.
    destruct (document_type =? "Articles of Association");
      [|destruct (document_type =? "UBO Declaration");
        [|destruct (document_type =? "Employment Contract")]];
      match goal with
      | |- context [if ?b then _ else _] => destruct b
      | _ => idtac
      end; simpl; intros H; try contradiction;
      destruct H as [<-|[]]; discriminate.
Qed.

(** C2.  When the lowered content contains a forbidden jurisdiction
    phrase, the evaluator's list has exactly one issue labelled
    ["Jurisdiction"]; it is High and its text names a forbidden phrase
    that the content contains; and no issue of the list is the
    missing-clause one.  With no forbidden and no required phrase, the
    only jurisdiction issue is the High missing-clause one.  With a
    required phrase and no forbidden one, there is no jurisdiction
    issue. *)
Theorem jurisdiction_check (content document_type : string) :
  let rule := jurisdiction compliance_rules in
  let contains phrase := str_in (lower phrase) (lower content) in
  let found :=
    issues_of_section "Jurisdiction" (check_adgm_compliance content document_type) in
  ((exists phrase, In phrase (Rule.forbidden rule) /\ contains phrase = true) ->
   exists phrase i,
     In phrase (Rule.forbidden rule) /\ contains phrase = true
     /\ found = [i]
     /\ severity i = Some "High"
     /\ issue i = ("Incorrect jurisdiction: " ++ phrase)%string
     /\ forall j, In j (check_adgm_compliance content document_type) ->
                  issue j <> "Missing ADGM jurisdiction clause")
  /\ ((forall phrase, In phrase (Rule.forbidden rule) -> contains phrase = false) ->
      (forall phrase, In phrase (Rule.required rule) -> contains phrase = false) ->
      exists i,
        found = [i]
        /\ severity i = Some "High"
        /\ issue i = "Missing ADGM jurisdiction clause")
  /\ ((forall phrase, In phrase (Rule.forbidden rule) -> contains phrase = false) ->
      (exists phrase, In phrase (Rule.required rule) /\ contains phrase = true) ->
      found = []).
Proof.
  intros rule contains found.
  unfold found. rewrite (proj1 (issues_by_section content document_type)).
  split; [|split].
  - intros Hex. apply first_forbidden_found in Hex. destruct Hex as [phrase E].
    destruct (first_forbidden_Some _ _ _ E) as [Hin Htrue].
    assert (Hj : _check_jurisdiction_compliance (lower content)
                 = Some {| issue := "Incorrect jurisdiction: " ++ phrase;
                           severity := Some "High";
                           suggestion := "Update jurisdiction to ADGM Courts";
                           regulation := "ADGM Companies Regulations 2020, Art. 6";
                           section := "Jurisdiction" |}).
    { unfold _check_jurisdiction_compliance. cbv zeta.
      fold rule. rewrite E. reflexivity. }
    eexists phrase, _. rewrite Hj.
    repeat (split; [first [exact Hin | exact Htrue | reflexivity]|]).
    intros j Hjin Htext.
    pose proof (missing_clause_origin _ _ _ Hjin Htext) as Horigin.
    rewrite Hj in Horigin. simpl in Horigin. destruct Horigin as [<-|[]].
    simpl in Htext. discriminate.
  - intros Hforb Hreq.
    apply first_forbidden_None in Hforb. apply any_required_false in Hreq.
    unfold _check_jurisdiction_compliance. cbv zeta. fold rule.
    rewrite Hforb, Hreq. simpl. eexists. repeat split.
  - intros Hforb Hreq.
    apply first_forbidden_None in Hforb. apply any_required_true in Hreq.
    unfold _check_jurisdiction_compliance. cbv zeta. fold rule.
    rewrite Hforb, Hreq. reflexivity.
Qed.

Lemma jurisdiction_check_witness :
  (exists phrase,
      In phrase (Rule.forbidden (jurisdiction compliance_rules))
      /\ str_in (lower phrase) (lower "Disputes go to the Dubai Courts of ADGM.")
         = true)
  /\ exists phrase i,
       issues_of_section "Jurisdiction"
         (check_adgm_compliance "Disputes go to the Dubai Courts of ADGM."
            "Board Resolution")
       = [i]
       /\ severity i = Some "High"
       /\ issue i = ("Incorrect jurisdiction: " ++ phrase)%string.
Proof.
  assert (H : exists phrase,
             In phrase (Rule.forbidden (jurisdiction compliance_rules))
             /\ str_in (lower phrase)
                  (lower "Disputes go to the Dubai Courts of ADGM.") = true).
  { exists "Dubai Courts". split; [simpl; tauto | reflexivity]. }
  split; [exact H|].
  destruct (proj1 (jurisdiction_check "Disputes go to the Dubai Courts of ADGM."
                     "Board Resolution") H)
    as (phrase & i & _ & _ & Hfound & Hsev & Htext & _).
  exists phrase, i. repeat split; assumption.
Defined.

(** C6.  The governing-law check returns an issue exactly when the
    lowered content contains a forbidden law phrase; that issue is High
    and its text names a forbidden phrase the content contains; with no
    forbidden phrase it returns nothing, whether or not a valid law is
    named; and it is the only source of the issues the evaluator labels
    ["Governing Law"]. *)
Theorem governing_law_check (content : string) :
  let rule := governing_law compliance_rules in
  let contains phrase := str_in (lower phrase) (lower content) in
  let result := _check_governing_law_compliance (lower content) in
  ((exists i, result = Some i)
   <-> exists phrase, In phrase (Rule.forbidden rule) /\ contains phrase = true)
  /\ (forall i, result = Some i ->
        severity i = Some "High"
        /\ exists phrase,
             In phrase (Rule.forbidden rule) /\ contains phrase = true
             /\ issue i = ("Incorrect governing law: " ++ phrase)%string)
  /\ ((forall phrase, In phrase (Rule.forbidden rule) -> contains phrase = false) ->
      result = None)
  /\ forall document_type,
       issues_of_section "Governing Law" (check_adgm_compliance content document_type)
       = to_list result.
Proof.
  intros rule contains result.
  assert (Hsome : forall i, result = Some i ->
            severity i = Some "High"
            /\ exists phrase,
                 In phrase (Rule.forbidden rule) /\ contains phrase = true
                 /\ issue i = ("Incorrect governing law: " ++ phrase)%string).
  { intros i. unfold result, _check_governing_law_compliance. cbv zeta. fold rule.
    destruct (first_forbidden rule (lower content)) as [phrase|] eqn:E;
      [|discriminate].
    intros [= <-]. destruct (first_forbidden_Some _ _ _ E) as [Hin Htrue].
    split; [reflexivity|]. exists phrase. now repeat split. }
  assert (Hnone : (forall phrase, In phrase (Rule.forbidden rule) ->
                                  contains phrase = false) -> result = None).
  { intros Hforb. apply first_forbidden_None in Hforb.
    unfold result, _check_governing_law_compliance. cbv zeta. fold rule.
    now rewrite Hforb. }
  split; [|split; [exact Hsome|split; [exact Hnone|]]].
  - split.
    + intros [i Hi]. destruct (Hsome i Hi) as (_ & phrase & Hin & Htrue & _).
      now exists phrase.
    + intros Hex. apply first_forbidden_found in Hex. destruct Hex as [phrase E].
      unfold result, _check_governing_law_compliance. cbv zeta. fold rule.
      rewrite E. eauto.
  - intros document_type. apply (proj2 (issues_by_section content document_type)).
Qed.

Lemma governing_law_check_witness :
  (forall phrase,
      In phrase (Rule.forbidden (governing_law compliance_rules)) ->
      str_in (lower phrase) (lower "This deed names no law at all.") = false)
  /\ _check_governing_law_compliance (lower "This deed names no law at all.") = None.
Proof.
  assert (H : forall phrase,
             In phrase (Rule.forbidden (governing_law compliance_rules)) ->
             str_in (lower phrase) (lower "This deed names no law at all.") = false).
  { simpl. intros phrase [<-|[<-|[]]]; reflexivity. }
  split; [exact H|].
  destruct (governing_law_check "This deed names no law at all.")
    as (_ & _ & Hnone & _).
  apply Hnone. exact H.
Defined.

Lemma str_in_unfold (needle haystack : string) :
  str_in needle haystack
  = prefix needle haystack
    || match haystack with
       | EmptyString => false
       | String _ rest => str_in needle rest
       end.
Proof. destruct haystack; reflexivity. Qed.

Lemma prefix_app_str_in (a b s : string) :
  prefix (a ++ b) s = true -> str_in b s = true.
Proof.
  revert s. induction a as [|x a IH]; intros s H.
  - rewrite str_in_unfold. simpl in H. now rewrite H.
  - destruct s as [|y s]; simpl in H; [discriminate|].
    destruct (ascii_dec x y); [|discriminate].
    rewrite str_in_unfold, (IH s H). apply orb_true_r.
Qed.

(** A text that does not contain a phrase does not contain a longer
    phrase ending with it. *)
Lemma str_in_app_r (a b s : string) :
  str_in (a ++ b) s = true -> str_in b s = true.
Proof.
  induction s as [|y s IH]; intros H; rewrite str_in_unfold in H;
    apply orb_true_iff in H; destruct H as [H|H].
  - now apply prefix_app_str_in in H.
  - discriminate.
  - now apply prefix_app_str_in in H.
  - rewrite str_in_unfold, (IH H). apply orb_true_r.
Qed.

(** C8.  A text whose lowered content contains ["uae federal courts"],
    ["signature"] and ["clause"], and neither ["capital"] nor a forbidden
    law phrase, evaluated as ["Articles of Association"], gets exactly
    two issues: the High jurisdiction issue naming UAE Federal Courts,
    then the Medium missing-share-capital issue. *)
Theorem scenario_federal_courts_without_capital (content : string) :
  str_in "uae federal courts" (lower content) = true ->
  str_in "signature" (lower content) = true ->
  str_in "clause" (lower content) = true ->
  str_in "capital" (lower content) = false ->
  str_in "uae federal law" (lower content) = false ->
  str_in "dubai law" (lower content) = false ->
  check_adgm_compliance content "Articles of Association"
  = [ {| issue := "Incorrect jurisdiction: UAE Federal Courts";
         severity := Some "High";
         suggestion := "Update jurisdiction to ADGM Courts";
         regulation := "ADGM Companies Regulations 2020, Art. 6";
         section := "Jurisdiction" |};
      {| issue := "Missing share capital information";
         severity := Some "Medium";
         suggestion := "Include share capital structure and classes";
         regulation := "ADGM Companies Regulations 2020, Art. 15";
         section := "Share Capital" |} ]
  /\ _check_governing_law_compliance (lower content) = None
  /\ _check_signature_compliance (lower content) = None
  /\ _check_structure_compliance (lower content) "Articles of Association" = None.
Proof.
  intros Hcourts Hsignature Hclause Hcapital Hlaw1 Hlaw2.
  assert (Hshare : str_in "share capital" (lower content) = false).
  { destruct (str_in "share capital" (lower content)) eqn:E; [|reflexivity].
    apply (str_in_app_r "share " "capital") in E.
    rewrite Hcapital in E. discriminate. }
  assert (Hj : _check_jurisdiction_compliance (lower content)
               = Some {| issue := "Incorrect jurisdiction: UAE Federal Courts";
                         severity := Some "High";
                         suggestion := "Update jurisdiction to ADGM Courts";
                         regulation := "ADGM Companies Regulations 2020, Art. 6";
                         section := "Jurisdiction" |}).
  { unfold _check_jurisdiction_compliance, first_forbidden. cbv zeta.
    cbn [jurisdiction compliance_rules Rule.forbidden find].
    change (lower "UAE Federal Courts") with "uae federal courts".
    rewrite Hcourts. reflexivity. }
  assert (Hg : _check_governing_law_compliance (lower content) = None).
  { unfold _check_governing_law_compliance, first_forbidden. cbv zeta.
    cbn [governing_law compliance_rules Rule.forbidden find].
    change (lower "UAE Federal Law") with "uae federal law".
    change (lower "Dubai Law") with "dubai law".
    rewrite Hlaw1, Hlaw2. reflexivity. }
  assert (Hs : _check_signature_compliance (lower content) = None).
  { unfold _check_signature_compliance, any_required. cbv zeta.
    cbn [signature_blocks compliance_rules Rule.required existsb].
    change (lower "signature") with "signature".
    rewrite Hsignature. reflexivity. }
  assert (Hd : _check_structure_compliance (lower content) "Articles of Association"
               = None).
  { unfold _check_structure_compliance, any_required. cbv zeta.
    cbn [document_structure compliance_rules Rule.required existsb].
    change (lower "clause") with "clause".
    rewrite Hclause. reflexivity. }
  repeat split; try assumption.
  rewrite check_adgm_compliance_parts, Hj, Hg, Hs, Hd.
  unfold _check_document_specific_compliance. cbv zeta.
  change ("Articles of Association" =? "Articles of Association") with true.
  cbv iota. rewrite Hshare, Hcapital. reflexivity.
Qed.

Lemma scenario_federal_courts_without_capital_witness :
  str_in "uae federal courts"
    (lower "Disputes go to the UAE Federal Courts. Signature: ____ Clause 1.")
  = true
  /\ map issue
       (check_adgm_compliance
          "Disputes go to the UAE Federal Courts. Signature: ____ Clause 1."
          "Articles of Association")
     = [ "Incorrect jurisdiction: UAE Federal Courts";
         "Missing share capital information" ].
Proof.
  split; [reflexivity|].
  rewrite (proj1 (scenario_federal_courts_without_capital
                    "Disputes go to the UAE Federal Courts. Signature: ____ Clause 1."
                    eq_refl eq_refl eq_refl eq_refl eq_refl eq_refl)).
  reflexivity.
Defined.

(* ================================================================== *)
(** * Properties of the classifier *)
(* ================================================================== *)

Section NoSignal.

Variables content_lower filename_lower : string.

Lemma score_patterns_unchanged (patterns : list string) (score : float) :
  forallb
    (fun pattern =>
       negb (re_search pattern content_lower)
       && negb (re_search pattern filename_lower))
    patterns = true ->
  fold_left (score_pattern content_lower filename_lower) patterns score = score.
Proof.
  revert score. induction patterns as [|pattern rest IH]; intros score H; simpl.
  - reflexivity.
  - simpl in H. apply andb_true_iff in H. destruct H as [Hp Hrest].
    apply andb_true_iff in Hp. destruct Hp as [Hc Hf].
    apply negb_true_iff in Hc, Hf.
    unfold score_pattern at 2. rewrite Hc, Hf. now apply IH.
Qed.

Lemma score_keywords_unchanged (doc_type : string) (score : float) :
  str_in "clause" content_lower && str_in "company" content_lower = false ->
  str_in "object" content_lower && str_in "purpose" content_lower = false ->
  str_in "ownership" content_lower && str_in "percentage" content_lower = false ->
  score_keywords doc_type content_lower score = score.
Proof.
  intros H1 H2 H3. unfold score_keywords. rewrite H1, H2, H3.
  destruct (doc_type =? "Articles of Association");
    destruct (doc_type =? "Memorandum of Association");
    destruct (doc_type =? "UBO Declaration"); reflexivity.
Qed.

Lemma score_types_unchanged (table : list (string * list string)) :
  forallb
    (fun entry : string * list string =>
       forallb
         (fun pattern =>
            negb (re_search pattern content_lower)
            && negb (re_search pattern filename_lower))
         (snd entry))
    table = true ->
  str_in "clause" content_lower && str_in "company" content_lower = false ->
  str_in "object" content_lower && str_in "purpose" content_lower = false ->
  str_in "ownership" content_lower && str_in "percentage" content_lower = false ->
  fold_left (score_type content_lower filename_lower) table (None, 0%float)
  = (None, 0%float).
Proof.
  intros Ht H1 H2 H3.
  induction table as [|[doc_type patterns] rest IH]; simpl; [reflexivity|].
  simpl in Ht. apply andb_true_iff in Ht. destruct Ht as [Hp Hrest].
  unfold type_score.
  rewrite (score_patterns_unchanged _ _ Hp).
  rewrite (score_keywords_unchanged _ _ H1 H2 H3).
  change (PrimFloat.ltb 0 0) with false. cbv iota. now apply IH.
Qed.

End NoSignal.

(** C1, as the code has it.  When no pattern of the detection table
    matches the lowered content or the lowered file name, and none of
    the three secondary keyword pairs is complete in the lowered
    content, the classifier returns ["Unknown Document"],
    ["General Legal"] and 0.0. *)
Theorem detect_unknown_document (content filename : string) :
  spec.no_pattern_matches content filename = true ->
  spec.no_keyword_pair content = true ->
  detect_document_type content filename
  = ("Unknown Document", "General Legal", 0%float).
Proof.
  intros Hp Hk. unfold spec.no_keyword_pair in Hk. cbv zeta in Hk.
  apply andb_true_iff in Hk. destruct Hk as [Hk H3].
  apply andb_true_iff in Hk. destruct Hk as [H1 H2].
  apply negb_true_iff in H1, H2, H3.
  unfold detect_document_type. cbv zeta.
  rewrite (score_types_unchanged _ _ _ Hp H1 H2 H3).
  reflexivity.
Qed.

Lemma detect_unknown_document_witness :
  spec.no_pattern_matches "Minutes of the yearly picnic" "picnic.docx" = true
  /\ spec.no_keyword_pair "Minutes of the yearly picnic" = true
  /\ detect_document_type "Minutes of the yearly picnic" "picnic.docx"
     = ("Unknown Document", "General Legal", 0%float).
Proof.
  split; [reflexivity|]. split; [reflexivity|].
  apply detect_unknown_document; reflexivity.
Defined.

(** C1 as stated fails: a text that no pattern matches but that contains
    both ["clause"] and ["company"] is classified as Articles of
    Association with confidence 0.2. *)
Lemma detect_keyword_bonus_counterexample :
  spec.no_pattern_matches "Each clause binds the company." "scan0001.docx" = true
  /\ detect_document_type "Each clause binds the company." "scan0001.docx"
     = ("Articles of Association", "Company Incorporation", 0.2%float)
  /\ detect_document_type "Each clause binds the company." "scan0001.docx"
     <> ("Unknown Document", "General Legal", 0%float).
Proof.
  split; [reflexivity|]. split; [reflexivity|].
  intros H. vm_compute in H. discriminate.
Qed.

(** The pattern syntax on three small texts: [\s+] takes any run of
    white space, a literal matches inside a word, and a missing blank
    is no match. *)
Example re_search_examples :
  re_search "articles\s+of\s+association"
    (lower ("The ARTICLES  of" ++ String (ascii_of_nat 10) "Association")) = true
  /\ re_search "aoa" "draft-aoa-v2.docx" = true
  /\ re_search "board\s+resolution" "boardresolution" = false.
Proof. repeat split; reflexivity. Qed.

(** Scores add up per matching pattern and the confidence is cut at 1. *)
Example detect_document_type_example :
  detect_document_type "Articles of Association (AoA) of the company, clause 1"
    "AoA.docx"
  = ("Articles of Association", "Company Incorporation", 1%float).
Proof. reflexivity. Qed.

Lemma score_values_table :
  forallb (score_value_ok keyed_scores) keyed_scores = true.
Proof. vm_compute. reflexivity. Qed.

Lemma keyed_score_in (a : float) :
  In a score_values -> In (a, score_key a) keyed_scores.
Proof. intros Ha. unfold keyed_scores. now apply (in_map (fun a => (a, score_key a))). Qed.

Lemma zero_key_bits_table : zero_key_bits_ok = true.
Proof. vm_compute. reflexivity. Qed.

Lemma in_all_bits (bits : list bool) :
  In bits (all_bits (length bits)).
Proof.
  induction bits as [|b bits IH]; simpl; [now left|].
  apply in_or_app. destruct b; [left|right]; now apply in_map.
Qed.

Lemma score_keywords_bonus (doc_type content_lower : string) (score : float) :
  score_keywords doc_type content_lower score
  = if keyword_bonus doc_type content_lower then (score + 0.2)%float else score.
Proof.
  unfold score_keywords, keyword_bonus.
  destruct (doc_type =? "Articles of Association"); [reflexivity|].
  destruct (doc_type =? "Memorandum of Association"); [reflexivity|].
  destruct (doc_type =? "UBO Declaration"); reflexivity.
Qed.

Lemma type_score_bits (content_lower filename_lower doc_type : string)
    (patterns : list string) :
  type_score content_lower filename_lower doc_type patterns
  = score_of_bits (score_bits content_lower filename_lower doc_type patterns) 0%float.
Proof.
  unfold type_score, score_bits. generalize 0%float as score.
  induction patterns as [|pattern rest IH]; intros score.
  - simpl. apply score_keywords_bonus.
  - simpl. rewrite IH. reflexivity.
Qed.

Lemma score_bits_length (content_lower filename_lower doc_type : string)
    (patterns : list string) :
  length (score_bits content_lower filename_lower doc_type patterns)
  = 2 * length patterns + 1.
Proof.
  unfold score_bits. rewrite length_app. simpl.
  induction patterns as [|pattern rest IH]; simpl; lia.
Qed.

Lemma type_score_value (content_lower filename_lower doc_type : string)
    (patterns : list string) :
  length patterns = 4 ->
  In (type_score content_lower filename_lower doc_type patterns) score_values.
Proof.
  intros H4. rewrite type_score_bits. unfold score_values.
  apply (in_map (fun bits => score_of_bits bits 0%float)).
  pose proof (in_all_bits
                (score_bits content_lower filename_lower doc_type patterns)) as Hin.
  rewrite score_bits_length, H4 in Hin. exact Hin.
Qed.

Lemma zero_score_value : In 0%float score_values.
Proof.
  unfold score_values.
  apply (in_map (fun bits => score_of_bits bits 0%float) (all_bits 9)
           (repeat false 9)).
  apply (in_all_bits (repeat false 9)).
Qed.

Lemma score_value_facts (a : float) :
  In a score_values ->
  (0 <= score_key a)%Z
  /\ PrimFloat.leb 0%float (Py.min a 1%float) = true
  /\ PrimFloat.leb (Py.min a 1%float) 1%float = true
  /\ PrimFloat.ltb 0%float (Py.min a 1%float) = (0 <? score_key a)%Z
  /\ forall b, In b score_values ->
       PrimFloat.ltb a b = (score_key a <? score_key b)%Z
       /\ PrimFloat.leb a b = (score_key a <=? score_key b)%Z.
Proof.
  intros Ha. pose proof score_values_table as T.
  rewrite forallb_forall in T.
  specialize (T (a, score_key a) (keyed_score_in a Ha)).
  unfold score_value_ok in T.
  repeat rewrite andb_true_iff in T.
  destruct T as [[[[[T1 _] T3] T4] T5] T6].
  split; [now apply Z.leb_le|].
  split; [exact T3|]. split; [exact T4|].
  split; [now apply Bool.eqb_prop|].
  intros b Hb. rewrite forallb_forall in T6.
  specialize (T6 (b, score_key b) (keyed_score_in b Hb)).
  cbn [fst snd] in T6. apply andb_true_iff in T6. destruct T6 as [L1 L2].
  split; now apply Bool.eqb_prop.
Qed.

Lemma zero_key_no_bit (content_lower filename_lower doc_type : string)
    (patterns : list string) :
  length patterns = 4 ->
  (score_key (type_score content_lower filename_lower doc_type patterns) <= 0)%Z ->
  forall b, In b (score_bits content_lower filename_lower doc_type patterns) ->
            b = false.
Proof.
  intros H4 Hkey b Hb. pose proof zero_key_bits_table as T.
  unfold zero_key_bits_ok in T. rewrite forallb_forall in T.
  pose proof (in_all_bits
                (score_bits content_lower filename_lower doc_type patterns)) as Hin.
  rewrite score_bits_length, H4 in Hin. specialize (T _ Hin).
  rewrite <- type_score_bits in T.
  apply Z.leb_le in Hkey. rewrite Hkey in T. simpl in T.
  apply negb_true_iff in T.
  destruct b; [|reflexivity].
  assert (Hex : existsb (fun b : bool => b)
                  (score_bits content_lower filename_lower doc_type patterns) = true).
  { apply existsb_exists. exists true. now split. }
  rewrite Hex in T. discriminate.
Qed.

Lemma table_patterns_four (e : string * list string) :
  In e document_patterns -> length (snd e) = 4.
Proof.
  unfold document_patterns. simpl. intros H.
  repeat (destruct H as [<-|H]; [reflexivity|]). contradiction.
Qed.

Lemma table_key (doc_type : string) (patterns : list string) :
  In (doc_type, patterns) document_patterns ->
  In doc_type
    ["Articles of Association"; "Memorandum of Association"; "UBO Declaration";
     "Board Resolution"; "Employment Contract"; "Compliance Manual"].
Proof.
  intros H. apply (in_map fst) in H. exact H.
Qed.

Section Winner.

Variables content_lower filename_lower : string.

Lemma winner_step (processed : list (string * list string))
    (best : option string * float) (e : string * list string) :
  winner_inv content_lower filename_lower processed best ->
  length (snd e) = 4 ->
  winner_inv content_lower filename_lower (processed ++ [e])
    (score_type content_lower filename_lower best e).
Proof.
  destruct best as [best_match best_score], e as [doc_type patterns].
  unfold winner_inv. cbn [fst snd]. intros [Hin Hcase] H4.
  unfold score_type.
  set (score := type_score content_lower filename_lower doc_type patterns).
  assert (Hs : In score score_values) by now apply type_score_value.
  destruct (score_value_facts _ Hin) as (Hpos & _ & _ & _ & Hcmp).
  destruct (Hcmp _ Hs) as [Hlt _].
  destruct (PrimFloat.ltb best_score score) eqn:E; cbn [fst snd].
  - symmetry in Hlt. apply Z.ltb_lt in Hlt.
    split; [exact Hs|].
    exists processed, patterns, []. split; [reflexivity|].
    split; [reflexivity|]. split; [lia|]. split; [|intros e' []].
    intros e' He'. destruct best_match as [winner|].
    + destruct Hcase as (before & ps & after & -> & Hbest & _ & Hbefore & Hafter).
      apply in_app_or in He'. destruct He' as [He'|[<-|He']].
      * specialize (Hbefore _ He'). lia.
      * unfold entry_score. cbn [fst snd]. rewrite <- Hbest. lia.
      * specialize (Hafter _ He'). lia.
    + destruct Hcase as [_ Hall]. specialize (Hall _ He'). lia.
  - symmetry in Hlt. apply Z.ltb_ge in Hlt.
    split; [exact Hin|]. destruct best_match as [winner|].
    + destruct Hcase as (before & ps & after & -> & Hbest & Hwin & Hbefore & Hafter).
      exists before, ps, (after ++ [(doc_type, patterns)]).
      split; [now rewrite <- app_assoc|].
      split; [exact Hbest|]. split; [exact Hwin|]. split; [exact Hbefore|].
      intros e' He'. apply in_app_or in He'. destruct He' as [He'|[<-|[]]].
      * now apply Hafter.
      * exact Hlt.
    + destruct Hcase as [-> Hall]. split; [reflexivity|].
      intros e' He'. apply in_app_or in He'. destruct He' as [He'|[<-|[]]].
      * now apply Hall.
      * exact Hlt.
Qed.

Lemma winner_fold (rest processed : list (string * list string))
    (best : option string * float) :
  winner_inv content_lower filename_lower processed best ->
  (forall e, In e rest -> length (snd e) = 4) ->
  winner_inv content_lower filename_lower (processed ++ rest)
    (fold_left (score_type content_lower filename_lower) rest best).
Proof.
  revert processed best.
  induction rest as [|e rest IH]; intros processed best Hinv H4; simpl.
  - now rewrite app_nil_r.
  - replace (processed ++ e :: rest) with ((processed ++ [e]) ++ rest)
      by now rewrite <- app_assoc.
    apply IH.
    + apply winner_step; [exact Hinv|]. apply H4. now left.
    + intros e' He'. apply H4. now right.
Qed.

End Winner.

(** The result of [detect_document_type] in terms of the final state of
    its loop, with what the loop has established. *)
Lemma detect_winner (content filename : string) :
  exists best,
    winner_inv (lower content) (lower filename) document_patterns best
    /\ detect_document_type content filename
       = (or_default (fst best) "Unknown Document", category_of (fst best),
          Py.min (snd best) 1%float).
Proof.
  exists (fold_left (score_type (lower content) (lower filename)) document_patterns
            (None, 0%float)).
  split.
  - apply (winner_fold _ _ document_patterns [] (None, 0%float)).
    + split; [apply zero_score_value|]. cbn [fst snd].
      split; [reflexivity|]. intros e [].
    + apply table_patterns_four.
  - unfold detect_document_type. cbv zeta.
    destruct (fold_left _ document_patterns (None, 0%float)) as [bm bs].
    reflexivity.
Qed.

Lemma table_key_kept (doc_type : string) (patterns : list string) :
  In (doc_type, patterns) document_patterns ->
  or_default (Some doc_type) "Unknown Document" = doc_type
  /\ doc_type <> "Unknown Document".
Proof.
  intros H. apply table_key in H. simpl in H.
  repeat (destruct H as [<-|H]; [split; [reflexivity|discriminate]|]).
  contradiction.
Qed.

Lemma lower_char_idempotent (c : ascii) :
  lower_char (lower_char c) = lower_char c.
Proof. destruct c as [[] [] [] [] [] [] [] []]; reflexivity. Qed.

Lemma lower_idempotent (s : string) : lower (lower s) = lower s.
Proof.
  induction s as [|c s IH]; simpl; [reflexivity|].
  now rewrite lower_char_idempotent, IH.
Qed.

Lemma lower_app (a b : string) : lower (a ++ b) = (lower a ++ lower b)%string.
Proof. induction a as [|c a IH]; simpl; [reflexivity|]. now rewrite IH. Qed.

(** X1.  The classifier returns the type with the highest score, the
    first one in table order on a tie: either no type scores above 0.0
    and the result is ["Unknown Document"] with confidence 0.0, or the
    returned type is an entry of the table whose score is above 0.0,
    strictly above the score of every entry before it and at least the
    score of every entry after it, and the confidence is that score cut
    at 1.0. *)
Theorem detect_first_highest_score (content filename : string) :
  let c := lower content in
  let f := lower filename in
  let result := detect_document_type content filename in
  let doc_type := fst (fst result) in
  let confidence := snd result in
  (doc_type = "Unknown Document"
   /\ confidence = 0%float
   /\ forall e, In e document_patterns ->
                PrimFloat.ltb 0%float (entry_score c f e) = false)
  \/ (exists before patterns after,
        document_patterns = before ++ (doc_type, patterns) :: after
        /\ confidence = Py.min (type_score c f doc_type patterns) 1%float
        /\ PrimFloat.ltb 0%float (type_score c f doc_type patterns) = true
        /\ (forall e, In e before ->
              PrimFloat.ltb (entry_score c f e) (type_score c f doc_type patterns)
              = true)
        /\ (forall e, In e after ->
              PrimFloat.leb (entry_score c f e) (type_score c f doc_type patterns)
              = true)).
Proof.
  intros c f result doc_type confidence.
  destruct (detect_winner content filename) as ([bm bs] & [Hin Hcase] & Hres).
  unfold doc_type, confidence, result. rewrite Hres. cbn [fst snd] in *.
  fold c f in Hcase.
  assert (Hentry : forall e, In e document_patterns ->
                             In (entry_score c f e) score_values).
  { intros e He. apply type_score_value. now apply table_patterns_four. }
  destruct bm as [winner|].
  - right. destruct Hcase as (before & ps & after & Htable & Hbest & Hwin
                               & Hbefore & Hafter).
    assert (Hw : In (winner, ps) document_patterns).
    { rewrite Htable. apply in_or_app. right. now left. }
    destruct (table_key_kept _ _ Hw) as [-> _].
    exists before, ps, after. rewrite <- Hbest.
    split; [exact Htable|]. split; [reflexivity|].
    split.
    + destruct (score_value_facts _ zero_score_value) as (_ & _ & _ & _ & Hcmp).
      destruct (Hcmp _ Hin) as [-> _]. now apply Z.ltb_lt.
    + split; intros e He.
      * assert (Hmem : In e document_patterns).
        { rewrite Htable. apply in_or_app. now left. }
        destruct (score_value_facts _ (Hentry e Hmem)) as (_ & _ & _ & _ & Hcmp).
        destruct (Hcmp _ Hin) as [-> _]. apply Z.ltb_lt. now apply Hbefore.
      * assert (Hmem : In e document_patterns).
        { rewrite Htable. apply in_or_app. right. now right. }
        destruct (score_value_facts _ (Hentry e Hmem)) as (_ & _ & _ & _ & Hcmp).
        destruct (Hcmp _ Hin) as [_ ->]. apply Z.leb_le. now apply Hafter.
  - left. destruct Hcase as [-> Hall].
    split; [reflexivity|]. split; [reflexivity|].
    intros e He.
    destruct (score_value_facts _ zero_score_value) as (_ & _ & _ & _ & Hcmp).
    destruct (Hcmp _ (Hentry e He)) as [-> _].
    apply Z.ltb_ge. now apply Hall.
Qed.

(** X2.  The confidence is always between 0.0 and 1.0, and the type is
    ["Unknown Document"] exactly when the confidence is 0.0. *)
Theorem detect_confidence_range (content filename : string) :
  let result := detect_document_type content filename in
  let doc_type := fst (fst result) in
  let confidence := snd result in
  PrimFloat.leb 0%float confidence = true
  /\ PrimFloat.leb confidence 1%float = true
  /\ (doc_type = "Unknown Document" <-> confidence = 0%float).
Proof.
  intros result doc_type confidence.
  destruct (detect_winner content filename) as ([bm bs] & [Hin Hcase] & Hres).
  unfold doc_type, confidence, result. rewrite Hres. cbn [fst snd] in *.
  destruct (score_value_facts _ Hin) as (_ & Hlo & Hhi & Hpos & _).
  split; [exact Hlo|]. split; [exact Hhi|].
  destruct bm as [winner|].
  - destruct Hcase as (before & ps & after & Htable & _ & Hwin & _).
    assert (Hw : In (winner, ps) document_patterns).
    { rewrite Htable. apply in_or_app. right. now left. }
    destruct (table_key_kept _ _ Hw) as [-> Hne].
    split; [intros H; now elim Hne|].
    intros H0. rewrite H0 in Hpos.
    apply Z.ltb_lt in Hwin. rewrite Hwin in Hpos. discriminate.
  - destruct Hcase as [-> _]. split; reflexivity.
Qed.

(** X3.  The type and the category returned are always one of seven
    pairs: the six types of the detection table with their category
    (Board Resolution falls under General Legal) or Unknown Document
    with General Legal. *)
Theorem detect_type_and_category (content filename : string) :
  let result := detect_document_type content filename in
  In (fst result)
    [ ("Articles of Association", "Company Incorporation");
      ("Memorandum of Association", "Company Incorporation");
      ("UBO Declaration", "Company Incorporation");
      ("Board Resolution", "General Legal");
      ("Employment Contract", "Employment");
      ("Compliance Manual", "Compliance");
      ("Unknown Document", "General Legal") ].
Proof.
  intros result.
  destruct (detect_winner content filename) as ([bm bs] & [_ Hcase] & Hres).
  unfold result. rewrite Hres. cbn [fst snd] in *.
  destruct bm as [winner|].
  - destruct Hcase as (before & ps & after & Htable & _).
    assert (Hw : In (winner, ps) document_patterns).
    { rewrite Htable. apply in_or_app. right. now left. }
    apply table_key in Hw. simpl in Hw.
    repeat (destruct Hw as [<-|Hw]; [simpl; tauto|]). contradiction.
  - simpl. tauto.
Qed.

Lemma pattern_bits_in (content_lower filename_lower doc_type pattern : string)
    (patterns : list string) :
  In pattern patterns ->
  In (re_search pattern content_lower)
    (score_bits content_lower filename_lower doc_type patterns)
  /\ In (re_search pattern filename_lower)
       (score_bits content_lower filename_lower doc_type patterns).
Proof.
  intros Hp. unfold score_bits. split; apply in_or_app; left;
    apply in_flat_map; exists pattern; (split; [exact Hp|]); simpl; tauto.
Qed.

Lemma bonus_bit_in (content_lower filename_lower doc_type : string)
    (patterns : list string) :
  In (keyword_bonus doc_type content_lower)
    (score_bits content_lower filename_lower doc_type patterns).
Proof. unfold score_bits. apply in_or_app. right. now left. Qed.

(** X4.  The classifier answers ["Unknown Document"] exactly when no
    pattern of the table matches the lowered content or file name and no
    secondary keyword pair is complete in the lowered content. *)
Theorem detect_unknown_iff_no_signal (content filename : string) :
  fst (fst (detect_document_type content filename)) = "Unknown Document"
  <-> spec.no_pattern_matches content filename = true
      /\ spec.no_keyword_pair content = true.
Proof.
  split.
  - destruct (detect_winner content filename) as ([bm bs] & [_ Hcase] & Hres).
    rewrite Hres. cbn [fst snd] in *. intros Hty.
    destruct bm as [winner|].
    + exfalso. destruct Hcase as (before & ps & after & Htable & _).
      assert (Hw : In (winner, ps) document_patterns).
      { rewrite Htable. apply in_or_app. right. now left. }
      destruct (table_key_kept _ _ Hw) as [E Hne]. rewrite E in Hty. now elim Hne.
    + destruct Hcase as [_ Hall].
      assert (Hbits : forall doc_type patterns b,
                 In (doc_type, patterns) document_patterns ->
                 In b (score_bits (lower content) (lower filename) doc_type patterns) ->
                 b = false).
      { intros doc_type patterns b He Hb.
        apply (zero_key_no_bit (lower content) (lower filename) doc_type patterns).
        - apply (table_patterns_four _ He).
        - apply (Hall _ He).
        - exact Hb. }
      split.
      * unfold spec.no_pattern_matches. apply forallb_forall.
        intros [doc_type patterns] He. apply forallb_forall. intros pattern Hp.
        cbn [snd] in Hp.
        destruct (pattern_bits_in (lower content) (lower filename) doc_type
                    pattern patterns Hp) as [Hc Hf].
        rewrite (Hbits _ _ _ He Hc), (Hbits _ _ _ He Hf). reflexivity.
      * unfold spec.no_keyword_pair. cbv zeta.
        assert (H1 : keyword_bonus "Articles of Association" (lower content) = false).
        { apply (Hbits "Articles of Association"
                   [ "articles\s+of\s+association"; "aoa";
                     "company\s+constitution"; "internal\s+regulations" ]);
            [simpl; tauto | apply bonus_bit_in]. }
        assert (H2 : keyword_bonus "Memorandum of Association" (lower content) = false).
        { apply (Hbits "Memorandum of Association"
                   [ "memorandum\s+of\s+association"; "moa";
                     "company\s+objectives"; "business\s+purpose" ]);
            [simpl; tauto | apply bonus_bit_in]. }
        assert (H3 : keyword_bonus "UBO Declaration" (lower content) = false).
        { apply (Hbits "UBO Declaration"
                   [ "ubo\s+declaration"; "ultimate\s+beneficial\s+owner";
                     "beneficial\s+ownership"; "ownership\s+structure" ]);
            [simpl; tauto | apply bonus_bit_in]. }
        change (str_in "clause" (lower content) && str_in "company" (lower content)
                = false) in H1.
        change (str_in "object" (lower content) && str_in "purpose" (lower content)
                = false) in H2.
        change (str_in "ownership" (lower content)
                && str_in "percentage" (lower content) = false) in H3.
        rewrite H1, H2, H3. reflexivity.
  - intros [Hp Hk]. unfold spec.no_keyword_pair in Hk. cbv zeta in Hk.
    apply andb_true_iff in Hk. destruct Hk as [Hk H3].
    apply andb_true_iff in Hk. destruct Hk as [H1 H2].
    apply negb_true_iff in H1, H2, H3.
    unfold detect_document_type. cbv zeta.
    rewrite (score_types_unchanged _ _ _ Hp H1 H2 H3). reflexivity.
Qed.

(** X5.  The classifier ignores letter case: two documents whose
    contents and file names agree once lowered get the same answer, and
    lowering the content and the file name beforehand changes nothing. *)
Theorem detect_ignores_case :
  (forall content1 content2 filename1 filename2,
      lower content1 = lower content2 ->
      lower filename1 = lower filename2 ->
      detect_document_type content1 filename1
      = detect_document_type content2 filename2)
  /\ forall content filename,
       detect_document_type (lower content) (lower filename)
       = detect_document_type content filename.
Proof.
  split.
  - intros content1 content2 filename1 filename2 Hc Hf.
    unfold detect_document_type. now rewrite Hc, Hf.
  - intros content filename. unfold detect_document_type.
    now rewrite !lower_idempotent.
Qed.

Lemma detect_ignores_case_witness :
  lower "BOARD Resolution" = lower "board resolution"
  /\ detect_document_type "BOARD Resolution" "Minutes.DOCX"
     = detect_document_type "board resolution" "minutes.docx".
Proof.
  split; [reflexivity|].
  apply (proj1 detect_ignores_case); reflexivity.
Defined.

(* ================================================================== *)
(** * Further properties of the checklist module *)
(* ================================================================== *)

Lemma verify_unknown (uploaded_docs : list string) (process_name : string) :
  get_checklist_for_process process_name = None ->
  verify_checklist_completeness uploaded_docs process_name
  = inr (ChecklistError "error" ("Unknown process: " ++ process_name)).
Proof.
  intros Hget. unfold verify_checklist_completeness. now rewrite Hget.
Qed.

Lemma dict_get_In {V : Type} (d : list (string * V)) (key : string) (v : V) :
  dict_get d key = Some v -> In (key, v) d.
Proof.
  induction d as [|[k w] d IH]; simpl; [discriminate|].
  destruct (String.eqb_spec k key) as [->|_].
  - intros [= ->]. now left.
  - intros H. right. now apply IH.
Qed.

Lemma known_checklist_nonempty (process_name : string) (c : Checklist) :
  get_checklist_for_process process_name = Some c ->
  required_documents c <> [].
Proof.
  intros Hget E. apply known_checklist_size in Hget. rewrite E in Hget.
  simpl in Hget. destruct Hget as [H|[H|[H|[]]]]; discriminate.
Qed.

(** The verifier's answer depends on the uploads only through the test
    [is_uploaded] on the lowered names. *)
Lemma verify_ext (uploaded1 uploaded2 : list string) (process_name : string) :
  (forall d, is_uploaded (map lower uploaded1) d
             = is_uploaded (map lower uploaded2) d) ->
  verify_checklist_completeness uploaded1 process_name
  = verify_checklist_completeness uploaded2 process_name.
Proof.
  intros H.
  destruct (get_checklist_for_process process_name) as [c|] eqn:Hget.
  - rewrite (verify_known uploaded1 _ _ Hget), (verify_known uploaded2 _ _ Hget).
    rewrite (filter_ext _ _ H).
    rewrite (filter_ext (fun d => negb (is_uploaded (map lower uploaded1) d))
               (fun d => negb (is_uploaded (map lower uploaded2) d)))
      by (intros d; now rewrite H).
    reflexivity.
  - now rewrite !verify_unknown.
Qed.

Lemma existsb_same_elements {A : Type} (p : A -> bool) (l1 l2 : list A) :
  (forall x, In x l1 <-> In x l2) -> existsb p l1 = existsb p l2.
Proof.
  intros H. destruct (existsb p l1) eqn:E1; destruct (existsb p l2) eqn:E2;
    try reflexivity.
  - apply existsb_exists in E1. destruct E1 as (x & Hx & Hp).
    assert (E : existsb p l2 = true)
      by (apply existsb_exists; exists x; split; [now apply H | exact Hp]).
    rewrite E in E2. discriminate.
  - apply existsb_exists in E2. destruct E2 as (x & Hx & Hp).
    assert (E : existsb p l1 = true)
      by (apply existsb_exists; exists x; split; [now apply H | exact Hp]).
    rewrite E in E1. discriminate.
Qed.

Lemma filter_all_true {A : Type} (p : A -> bool) (l : list A) :
  (forall x, In x l -> p x = true) ->
  filter p l = l /\ filter (fun x => negb (p x)) l = [].
Proof.
  induction l as [|x l IH]; intros H; simpl; [now split|].
  rewrite (H x (or_introl eq_refl)). simpl.
  destruct IH as [IH1 IH2]; [intros y Hy; apply H; now right|].
  now rewrite IH1, IH2.
Qed.

Lemma filter_all_false {A : Type} (p : A -> bool) (l : list A) :
  (forall x, In x l -> p x = false) ->
  filter p l = [] /\ filter (fun x => negb (p x)) l = l.
Proof.
  induction l as [|x l IH]; intros H; simpl; [now split|].
  rewrite (H x (or_introl eq_refl)). simpl.
  destruct IH as [IH1 IH2]; [intros y Hy; apply H; now right|].
  now rewrite IH1, IH2.
Qed.

Lemma percentage_ends (n p : nat) :
  In n [5; 7; 8] -> p <= n ->
  (stored_percentage p n = 100%float <-> p = n)
  /\ (stored_percentage p n = 0%float <-> p = 0).
Proof.
  intros Hn Hp.
  destruct Hn as [<-|[<-|[<-|[]]]];
    do 9 (destruct p as [|p];
          [split; split; intros H;
           match type of H with
           | @eq nat _ _ => first [discriminate H | vm_compute; reflexivity]
           | _ =>
               first [ reflexivity
                     | exfalso;
                       apply (f_equal (fun x => PrimFloat.eqb x 100%float)) in H;
                       vm_compute in H; discriminate H
                     | exfalso;
                       apply (f_equal (fun x => PrimFloat.eqb x 0%float)) in H;
                       vm_compute in H; discriminate H ]
           end|]);
    exfalso; lia.
Qed.

Lemma prefix_app_self (a b : string) : prefix a (a ++ b) = true.
Proof.
  induction a as [|x a IH]; simpl; [now destruct b|].
  destruct (ascii_dec x x) as [_|Hne]; [exact IH | now elim Hne].
Qed.

Lemma str_in_middle (a needle b : string) :
  str_in needle (a ++ needle ++ b) = true.
Proof.
  induction a as [|x a IH]; rewrite str_in_unfold.
  - simpl. now rewrite prefix_app_self.
  - simpl. rewrite IH. apply orb_true_r.
Qed.

(** X6.  [get_all_processes] lists exactly the names for which
    [get_checklist_for_process] finds a checklist; the checklist found
    is the entry of the table under that name and requires at least one
    document; and no name is listed twice. *)
Theorem listed_processes_are_found :
  (forall process_name,
      In process_name get_all_processes
      <-> exists c, get_checklist_for_process process_name = Some c)
  /\ (forall process_name c,
         get_checklist_for_process process_name = Some c ->
         In (process_name, c) ADGM_CHECKLISTS /\ required_documents c <> [])
  /\ NoDup get_all_processes.
Proof.
  split; [|split].
  - intros process_name. split; [apply known_process|].
    intros [c Hget]. unfold get_checklist_for_process in Hget.
    destruct (in_dec string_dec process_name get_all_processes) as [Hin|Hnot];
      [exact Hin|].
    apply dict_get_None in Hnot. rewrite Hnot in Hget. discriminate.
  - intros process_name c Hget. split.
    + now apply dict_get_In.
    + now apply (known_checklist_nonempty process_name).
  - unfold get_all_processes. simpl.
    repeat (constructor; [simpl; intros H;
                          repeat (destruct H as [H|H]; [discriminate H|]);
                          contradiction|]).
    constructor.
Qed.

Lemma listed_processes_are_found_witness :
  exists c,
    get_checklist_for_process "Licensing" = Some c
    /\ In ("Licensing", c) ADGM_CHECKLISTS
    /\ required_documents c <> [].
Proof.
  eexists. split; [reflexivity|].
  apply (proj1 (proj2 listed_processes_are_found) "Licensing"). reflexivity.
Defined.

(** X7.  The verifier never raises, the division by the number of
    required documents included: it returns a normal result exactly for
    the listed processes and the error dict, with the message naming the
    process, exactly for the others. *)
Theorem verify_never_raises (uploaded_docs : list string) (process_name : string) :
  exists result,
    verify_checklist_completeness uploaded_docs process_name = inr result
    /\ ((exists r, result = ChecklistOk r) <-> In process_name get_all_processes)
    /\ (result = ChecklistError "error" ("Unknown process: " ++ process_name)
        <-> ~ In process_name get_all_processes).
Proof.
  destruct (get_checklist_for_process process_name) as [c|] eqn:Hget.
  - assert (Hin : In process_name get_all_processes).
    { destruct (in_dec string_dec process_name get_all_processes) as [Hin|Hnot];
        [exact Hin|].
      apply dict_get_None in Hnot. unfold get_checklist_for_process in Hget.
      rewrite Hnot in Hget. discriminate. }
    eexists. split; [apply (verify_known _ _ _ Hget)|]. split.
    + split; [intros _; exact Hin | intros _; eexists; reflexivity].
    + split; [discriminate | intros Hnot; now elim Hnot].
  - assert (Hnot : ~ In process_name get_all_processes)
      by (now apply dict_get_None).
    eexists. split; [apply (verify_unknown _ _ Hget)|]. split.
    + split; [intros [r Hr]; discriminate | intros Hin; now elim Hnot].
    + split; [intros _; exact Hnot | reflexivity].
Qed.

(** X8.  The verifier's result depends only on which file names were
    uploaded, not on their order or on repetitions. *)
Theorem verify_same_uploads (uploaded1 uploaded2 : list string)
    (process_name : string) :
  (forall name, In name uploaded1 <-> In name uploaded2) ->
  verify_checklist_completeness uploaded1 process_name
  = verify_checklist_completeness uploaded2 process_name.
Proof.
  intros Hsame. apply verify_ext. intros d. unfold is_uploaded.
  apply existsb_same_elements. intros x. rewrite !in_map_iff.
  split; intros (u & Hu & Hin); exists u; (split; [exact Hu|]); now apply Hsame.
Qed.

Lemma verify_same_uploads_witness :
  (forall name, In name ["b.docx"; "a.docx"; "b.docx"] <-> In name ["a.docx"; "b.docx"])
  /\ verify_checklist_completeness ["b.docx"; "a.docx"; "b.docx"] "Compliance"
     = verify_checklist_completeness ["a.docx"; "b.docx"] "Compliance".
Proof.
  assert (H : forall name,
             In name ["b.docx"; "a.docx"; "b.docx"] <-> In name ["a.docx"; "b.docx"])
    by (intros name; simpl; tauto).
  split; [exact H|]. now apply verify_same_uploads.
Defined.

(** X9.  The verifier ignores the letter case of the uploaded file
    names. *)
Theorem verify_ignores_case :
  (forall uploaded1 uploaded2 process_name,
      map lower uploaded1 = map lower uploaded2 ->
      verify_checklist_completeness uploaded1 process_name
      = verify_checklist_completeness uploaded2 process_name)
  /\ forall uploaded_docs process_name,
       verify_checklist_completeness (map lower uploaded_docs) process_name
       = verify_checklist_completeness uploaded_docs process_name.
Proof.
  split.
  - intros uploaded1 uploaded2 process_name H. apply verify_ext.
    intros d. now rewrite H.
  - intros uploaded_docs process_name. apply verify_ext. intros d.
    rewrite map_map.
    rewrite (map_ext (fun x => lower (lower x)) lower lower_idempotent).
    reflexivity.
Qed.

Lemma verify_ignores_case_witness :
  map lower ["BOARD CHARTER.DOCX"] = map lower ["Board Charter.docx"]
  /\ verify_checklist_completeness ["BOARD CHARTER.DOCX"] "Corporate Governance"
     = verify_checklist_completeness ["Board Charter.docx"] "Corporate Governance".
Proof.
  split; [reflexivity|].
  apply (proj1 verify_ignores_case). reflexivity.
Defined.

Lemma is_uploaded_app (names1 names2 : list string) (req_doc : string) :
  is_uploaded (names1 ++ names2) req_doc
  = is_uploaded names1 req_doc || is_uploaded names2 req_doc.
Proof. unfold is_uploaded. apply existsb_app. Qed.

(** X10.  Uploading more files never turns a present document into a
    missing one: the present documents stay present, the missing ones
    can only shrink, a complete checklist stays complete and the
    percentage does not decrease. *)
Theorem verify_more_uploads (uploaded_docs more : list string)
    (process_name : string) (c : Checklist) :
  get_checklist_for_process process_name = Some c ->
  exists r1 r2,
    verify_checklist_completeness uploaded_docs process_name = inr (ChecklistOk r1)
    /\ verify_checklist_completeness (uploaded_docs ++ more) process_name
       = inr (ChecklistOk r2)
    /\ (forall d, In d (present_documents r1) -> In d (present_documents r2))
    /\ (forall d, In d (missing_documents r2) -> In d (missing_documents r1))
    /\ uploaded_count r1 <= uploaded_count r2
    /\ missing_count r2 <= missing_count r1
    /\ (status r1 = "complete" -> status r2 = "complete")
    /\ PrimFloat.leb (completeness_percentage r1) (completeness_percentage r2)
       = true.
Proof.
  intros Hget. do 2 eexists.
  split; [apply (verify_known uploaded_docs _ _ Hget)|].
  split; [apply (verify_known (uploaded_docs ++ more) _ _ Hget)|].
  cbn [present_documents missing_documents uploaded_count missing_count status
       completeness_percentage].
  set (k1 := is_uploaded (map lower uploaded_docs)).
  set (k2 := is_uploaded (map lower (uploaded_docs ++ more))).
  assert (H12 : forall d, k1 d = true -> k2 d = true).
  { intros d H. unfold k2. rewrite map_app, is_uploaded_app. fold k1.
    now rewrite H. }
  assert (Hp : forall d, In d (filter k1 (required_documents c)) ->
                         In d (filter k2 (required_documents c))).
  { intros d Hd. apply filter_In in Hd. apply filter_In.
    split; [tauto|]. apply H12. tauto. }
  assert (Hm : forall d,
             In d (filter (fun d => negb (k2 d)) (required_documents c)) ->
             In d (filter (fun d => negb (k1 d)) (required_documents c))).
  { intros d Hd. apply filter_In in Hd. apply filter_In.
    split; [tauto|]. destruct Hd as [_ Hd]. apply negb_true_iff in Hd.
    apply negb_true_iff. destruct (k1 d) eqn:E; [|reflexivity].
    rewrite (H12 d E) in Hd. discriminate. }
  assert (Hlen : length (filter k1 (required_documents c))
                 <= length (filter k2 (required_documents c))).
  { apply filter_length_le. intros d _. apply H12. }
  pose proof (filter_split_length k1 (required_documents c)) as S1.
  pose proof (filter_split_length k2 (required_documents c)) as S2.
  split; [exact Hp|]. split; [exact Hm|]. split; [exact Hlen|].
  split; [lia|]. split.
  - rewrite !status_complete_iff. intros E1.
    destruct (filter (fun d => negb (k2 d)) (required_documents c)) as [|d rest] eqn:E2;
      [reflexivity|].
    specialize (Hm d (or_introl eq_refl)). rewrite E1 in Hm. contradiction.
  - pose proof (known_checklist_size _ _ Hget) as Hsize.
    destruct (percentage_facts (length (required_documents c))
                (length (filter k1 (required_documents c))) Hsize) as (_ & _ & Hmono);
      [lia|].
    apply Hmono. lia.
Qed.

Lemma verify_more_uploads_witness :
  exists c,
    get_checklist_for_process "Employment" = Some c
    /\ exists r1 r2,
         verify_checklist_completeness ["Employee Handbook.docx"] "Employment"
         = inr (ChecklistOk r1)
         /\ verify_checklist_completeness
              (["Employee Handbook.docx"] ++ ["Non-Compete Agreement.docx"])
              "Employment"
            = inr (ChecklistOk r2)
         /\ uploaded_count r1 <= uploaded_count r2.
Proof.
  eexists. split; [reflexivity|].
  destruct (verify_more_uploads ["Employee Handbook.docx"]
              ["Non-Compete Agreement.docx"] "Employment" _ eq_refl)
    as (r1 & r2 & H1 & H2 & _ & _ & Hle & _).
  exists r1, r2. repeat split; assumption.
Defined.

(** X11.  In a normal result the status is ["complete"] exactly when
    the percentage is 100.0 and ["incomplete"] otherwise, and no
    document is present exactly when the percentage is 0.0. *)
Theorem complete_iff_full_percentage (uploaded_docs : list string)
    (process_name : string) (r : ChecklistResult) :
  verify_checklist_completeness uploaded_docs process_name = inr (ChecklistOk r) ->
  (status r = "complete" <-> completeness_percentage r = 100%float)
  /\ (status r = "incomplete" <-> completeness_percentage r <> 100%float)
  /\ (present_documents r = [] <-> completeness_percentage r = 0%float).
Proof.
  intros Hr. destruct (verify_ok_known _ _ _ Hr) as [c Hget].
  rewrite (verify_known _ _ _ Hget) in Hr. injection Hr as <-.
  cbn [status completeness_percentage present_documents].
  set (k := is_uploaded (map lower uploaded_docs)).
  pose proof (known_checklist_size _ _ Hget) as Hsize.
  pose proof (filter_split_length k (required_documents c)) as Hsplit.
  destruct (percentage_ends (length (required_documents c))
              (length (filter k (required_documents c))) Hsize) as [H100 H0];
    [lia|].
  assert (Hc : match filter (fun d => negb (k d)) (required_documents c) with
               | [] => "complete"
               | _ :: _ => "incomplete"
               end = "complete"
               <-> length (filter k (required_documents c))
                   = length (required_documents c)).
  { rewrite status_complete_iff. split.
    - intros E. rewrite E in Hsplit. simpl in Hsplit. lia.
    - intros E. apply length_zero_iff_nil. lia. }
  split; [now rewrite Hc, H100|]. split.
  - rewrite H100, <- Hc.
    destruct (filter (fun d => negb (k d)) (required_documents c));
      split; intros H; try discriminate; try reflexivity; now elim H.
  - rewrite H0. split.
    + intros E. now rewrite E.
    + apply length_zero_iff_nil.
Qed.

Lemma complete_iff_full_percentage_witness :
  exists r,
    verify_checklist_completeness [] "Licensing" = inr (ChecklistOk r)
    /\ (status r = "complete" <-> completeness_percentage r = 100%float).
Proof.
  eexists. split; [vm_compute; reflexivity|].
  apply (complete_iff_full_percentage [] "Licensing"). vm_compute. reflexivity.
Defined.

(** X12.  Uploading one file per required document, named after it
    with any common prefix and suffix, completes the checklist: every
    required document is present, none is missing, the status is
    ["complete"] and the percentage 100.0. *)
Theorem verify_named_after_required (process_name : string) (c : Checklist)
    (before after : string) :
  get_checklist_for_process process_name = Some c ->
  exists r,
    verify_checklist_completeness
      (map (fun d => (before ++ d ++ after)%string) (required_documents c))
      process_name
    = inr (ChecklistOk r)
    /\ present_documents r = required_documents c
    /\ missing_documents r = []
    /\ status r = "complete"
    /\ completeness_percentage r = 100%float.
Proof.
  intros Hget. eexists. split; [apply (verify_known _ _ _ Hget)|].
  cbn [present_documents missing_documents status completeness_percentage].
  set (uploaded := map (fun d => (before ++ d ++ after)%string) (required_documents c)).
  assert (Hall : forall d, In d (required_documents c) ->
                           is_uploaded (map lower uploaded) d = true).
  { intros d Hd. unfold is_uploaded. apply existsb_exists.
    exists (lower (before ++ d ++ after)). split.
    - apply in_map. unfold uploaded.
      now apply (in_map (fun d => (before ++ d ++ after)%string)).
    - rewrite !lower_app. apply str_in_middle. }
  destruct (filter_all_true _ _ Hall) as [-> ->].
  repeat split.
  pose proof (known_checklist_size _ _ Hget) as Hsize.
  now apply (percentage_ends _ _ Hsize (Nat.le_refl _)).
Qed.

Lemma verify_named_after_required_witness :
  exists c,
    get_checklist_for_process "Compliance" = Some c
    /\ exists r,
         verify_checklist_completeness
           (map (fun d => ("2025_" ++ d ++ ".docx")%string) (required_documents c))
           "Compliance"
         = inr (ChecklistOk r)
         /\ status r = "complete".
Proof.
  eexists. split; [reflexivity|].
  destruct (verify_named_after_required "Compliance" _ "2025_" ".docx" eq_refl)
    as (r & Hr & _ & _ & Hst & _).
  exists r. split; assumption.
Defined.

(** X13.  With nothing uploaded, every known process has no present
    document, all its required documents missing in their order,
    percentage 0.0 and status ["incomplete"]. *)
Theorem verify_nothing_uploaded (process_name : string) (c : Checklist) :
  get_checklist_for_process process_name = Some c ->
  exists r,
    verify_checklist_completeness [] process_name = inr (ChecklistOk r)
    /\ present_documents r = []
    /\ missing_documents r = required_documents c
    /\ uploaded_count r = 0
    /\ missing_count r = required_count r
    /\ completeness_percentage r = 0%float
    /\ status r = "incomplete".
Proof.
  intros Hget. eexists. split; [apply (verify_known _ _ _ Hget)|].
  cbn [present_documents missing_documents status completeness_percentage
       uploaded_count missing_count required_count].
  destruct (filter_all_false (is_uploaded (map lower [])) (required_documents c))
    as [-> ->]; [reflexivity|].
  pose proof (known_checklist_size _ _ Hget) as Hsize.
  pose proof (known_checklist_nonempty _ _ Hget) as Hne.
  repeat split.
  - now apply (percentage_ends _ 0 Hsize (Nat.le_0_l _)).
  - destruct (required_documents c); [now elim Hne | reflexivity].
Qed.

Lemma verify_nothing_uploaded_witness :
  exists c,
    get_checklist_for_process "Corporate Governance" = Some c
    /\ exists r,
         verify_checklist_completeness [] "Corporate Governance"
         = inr (ChecklistOk r)
         /\ missing_documents r = required_documents c.
Proof.
  eexists. split; [reflexivity|].
  destruct (verify_nothing_uploaded "Corporate Governance" _ eq_refl)
    as (r & Hr & _ & Hm & _).
  exists r. split; assumption.
Defined.

(* ================================================================== *)
(** * Further properties of the compliance evaluator *)
(* ================================================================== *)

Lemma Subseq_app {A : Type} (s1 l1 s2 l2 : list A) :
  spec.Subseq s1 l1 -> spec.Subseq s2 l2 -> spec.Subseq (s1 ++ s2) (l1 ++ l2).
Proof.
  intros H1 H2. induction H1; simpl; [exact H2 | | ]; now constructor.
Qed.

Lemma Subseq_In {A : Type} (s l : list A) (x : A) :
  spec.Subseq s l -> In x s -> In x l.
Proof.
  intros H. induction H; simpl; intros Hx.
  - contradiction.
  - right. now apply IHSubseq.
  - destruct Hx as [->|Hx]; [now left | right; now apply IHSubseq].
Qed.

Lemma Subseq_NoDup {A : Type} (s l : list A) :
  spec.Subseq s l -> NoDup l -> NoDup s.
Proof.
  intros H. induction H; intros Hl.
  - constructor.
  - inversion Hl; subst. now apply IHSubseq.
  - inversion Hl as [|y l' Hnot Hl']; subst. constructor.
    + intros Hin. apply Hnot. now apply (Subseq_In sub l).
    + now apply IHSubseq.
Qed.

Lemma Subseq_length {A : Type} (s l : list A) :
  spec.Subseq s l -> length s <= length l.
Proof. intros H. induction H; simpl; lia. Qed.

Ltac subseq :=
  repeat first [ apply spec.Subseq_nil
               | apply spec.Subseq_keep
               | apply spec.Subseq_skip ].

Lemma to_list_section_Subseq (o : option Issue) (label : string) :
  (forall i, In i (to_list o) -> section i = label) ->
  spec.Subseq (map section (to_list o)) [label].
Proof.
  destruct o as [i|]; simpl; intros H.
  - rewrite (H i (or_introl eq_refl)). subseq.
  - subseq.
Qed.

Lemma document_specific_Subseq (content document_type : string) :
  spec.Subseq
    (map section (_check_document_specific_compliance content document_type))
    ["Share Capital"; "Beneficial Ownership"; "Employment Terms"].
Proof.
  unfold _check_document_specific_compliance. cbv zeta.
  destruct (document_type =? "Articles of Association");
    [|destruct (document_type =? "UBO Declaration");
      [|destruct (document_type =? "Employment Contract")]];
    match goal with
    | |- context [if ?b then _ else _] => destruct b
    | _ => idtac
    end; simpl; subseq.
Qed.

(** X14.  The evaluator reports each rule at most once and in a fixed
    order: the section labels of its issues are a subsequence of
    Jurisdiction, Governing Law, Execution, Document Requirements and
    the three type-specific labels, without repetition, and there are at
    most five issues. *)
Theorem issues_in_rule_order (content document_type : string) :
  let found := check_adgm_compliance content document_type in
  spec.Subseq (map section found)
    [ "Jurisdiction"; "Governing Law"; "Execution"; "Document Requirements";
      "Share Capital"; "Beneficial Ownership"; "Employment Terms" ]
  /\ NoDup (map section found)
  /\ length found <= 5.
Proof.
  intros found.
  assert (Hsub : spec.Subseq (map section found)
                   ([ "Jurisdiction" ] ++ [ "Governing Law" ] ++ [ "Execution" ]
                    ++ [ "Document Requirements" ]
                    ++ [ "Share Capital"; "Beneficial Ownership";
                         "Employment Terms" ])).
  { unfold found. rewrite check_adgm_compliance_parts. rewrite !map_app.
    repeat apply Subseq_app.
    - apply to_list_section_Subseq. apply jurisdiction_section.
    - apply to_list_section_Subseq. apply governing_law_section.
    - apply to_list_section_Subseq. apply signature_section.
    - apply to_list_section_Subseq. apply structure_section.
    - apply document_specific_Subseq. }
  split; [exact Hsub|]. split.
  - apply (Subseq_NoDup _ _ Hsub). simpl.
    repeat (constructor; [simpl; intros H;
                          repeat (destruct H as [H|H]; [discriminate H|]);
                          contradiction|]).
    constructor.
  - unfold found. rewrite check_adgm_compliance_parts. rewrite !length_app.
    assert (L : forall o : option Issue, length (to_list o) <= 1)
      by (intros [i|]; simpl; lia).
    pose proof (L (_check_jurisdiction_compliance (lower content))).
    pose proof (L (_check_governing_law_compliance (lower content))).
    pose proof (L (_check_signature_compliance (lower content))).
    pose proof (L (_check_structure_compliance (lower content) document_type)).
    assert (length (_check_document_specific_compliance (lower content)
                      document_type) <= 1).
    { unfold _check_document_specific_compliance. cbv zeta.
      destruct (document_type =? "Articles of Association");
        [|destruct (document_type =? "UBO Declaration");
          [|destruct (document_type =? "Employment Contract")]];
        match goal with
        | |- context [if ?b then _ else _] => destruct b
        | _ => idtac
        end; simpl; lia. }
    lia.
Qed.

(** X15.  Every issue of the evaluator carries the severity and the
    regulation citation fixed for its section: one of seven triples. *)
Theorem issue_severity_and_citation (content document_type : string) (i : Issue) :
  In i (check_adgm_compliance content document_type) ->
  In (section i, severity i, regulation i)
    [ ("Jurisdiction", Some "High", "ADGM Companies Regulations 2020, Art. 6");
      ("Governing Law", Some "High", "ADGM Companies Regulations 2020, Art. 7");
      ("Execution", Some "Medium", "ADGM Companies Regulations 2020, Art. 12");
      ("Document Requirements", Some "Low",
       "ADGM Companies Regulations 2020, Art. 10");
      ("Share Capital", Some "Medium", "ADGM Companies Regulations 2020, Art. 15");
      ("Beneficial Ownership", Some "High",
       "ADGM Companies Regulations 2020, Art. 20");
      ("Employment Terms", Some "Medium", "ADGM Employment Regulations") ].
Proof.
  rewrite check_adgm_compliance_parts. intros Hin.
  repeat (apply in_app_or in Hin; destruct Hin as [Hin|Hin]); revert Hin.
  - unfold _check_jurisdiction_compliance. cbv zeta.
    destruct (first_forbidden _ (lower content));
      [|destruct (any_required _ (lower content))]; simpl; intros H;
      try contradiction; destruct H as [<-|[]]; simpl; tauto.
  - unfold _check_governing_law_compliance. cbv zeta.
    destruct (first_forbidden _ (lower content)); simpl; intros H;
      try contradiction; destruct H as [<-|[]]; simpl; tauto.
  - unfold _check_signature_compliance. cbv zeta.
    destruct (any_required _ (lower content)); simpl; intros H;
      try contradiction; destruct H as [<-|[]]; simpl; tauto.
  - unfold _check_structure_compliance. cbv zeta.
    destruct (any_required _ (lower content)); simpl; intros H;
      try contradiction; destruct H as [<-|[]]; simpl; tauto.
  - unfold _check_document_specific_compliance. cbv zeta.
    destruct (document_type =? "Articles of Association");
      [|destruct (document_type =? "UBO Declaration");
        [|destruct (document_type =? "Employment Contract")]];
      match goal with
      | |- context [if ?b then _ else _] => destruct b
      | _ => idtac
      end; simpl; intros H; try contradiction;
      destruct H as [<-|[]]; simpl; tauto.
Qed.

Lemma issue_severity_and_citation_witness :
  exists i,
    In i (check_adgm_compliance "Governed by Dubai Law." "Board Resolution")
    /\ section i = "Governing Law"
    /\ In (section i, severity i, regulation i)
         [ ("Jurisdiction", Some "High", "ADGM Companies Regulations 2020, Art. 6");
           ("Governing Law", Some "High", "ADGM Companies Regulations 2020, Art. 7");
           ("Execution", Some "Medium", "ADGM Companies Regulations 2020, Art. 12");
           ("Document Requirements", Some "Low",
            "ADGM Companies Regulations 2020, Art. 10");
           ("Share Capital", Some "Medium",
            "ADGM Companies Regulations 2020, Art. 15");
           ("Beneficial Ownership", Some "High",
            "ADGM Companies Regulations 2020, Art. 20");
           ("Employment Terms", Some "Medium", "ADGM Employment Regulations") ].
Proof.
  assert (Hin : In {| issue := "Incorrect governing law: Dubai Law";
                      severity := Some "High";
                      suggestion := "Update governing law to ADGM/English Law";
                      regulation := "ADGM Companies Regulations 2020, Art. 7";
                      section := "Governing Law" |}
                  (check_adgm_compliance "Governed by Dubai Law." "Board Resolution")).
  { vm_compute. tauto. }
  eexists. split; [exact Hin|]. split; [reflexivity|].
  apply (issue_severity_and_citation _ _ _ Hin).
Defined.

Lemma app_nil_iff {A : Type} (l1 l2 : list A) :
  l1 ++ l2 = [] <-> l1 = [] /\ l2 = [].
Proof.
  destruct l1; simpl; split; intros H; try discriminate.
  - now split.
  - now destruct H.
  - destruct H; discriminate.
Qed.

Lemma to_list_nil {A : Type} (o : option A) : to_list o = [] <-> o = None.
Proof. destruct o; simpl; split; intros H; try reflexivity; discriminate. Qed.

Lemma jurisdiction_none (content : string) :
  _check_jurisdiction_compliance content = None
  <-> first_forbidden (jurisdiction compliance_rules) content = None
      /\ any_required (jurisdiction compliance_rules) content = true.
Proof.
  unfold _check_jurisdiction_compliance. cbv zeta.
  destruct (first_forbidden _ content);
    [|destruct (any_required _ content)]; simpl;
    split; intros H; try discriminate; try (now split);
    destruct H; discriminate.
Qed.

Lemma governing_law_none (content : string) :
  _check_governing_law_compliance content = None
  <-> first_forbidden (governing_law compliance_rules) content = None.
Proof.
  unfold _check_governing_law_compliance. cbv zeta.
  destruct (first_forbidden _ content); split; intros H;
    try discriminate; reflexivity.
Qed.

Lemma signature_none (content : string) :
  _check_signature_compliance content = None
  <-> any_required (signature_blocks compliance_rules) content = true.
Proof.
  unfold _check_signature_compliance. cbv zeta.
  destruct (any_required _ content); simpl; split; intros H;
    try discriminate; reflexivity.
Qed.

Lemma structure_none (content document_type : string) :
  _check_structure_compliance content document_type = None
  <-> any_required (document_structure compliance_rules) content = true.
Proof.
  unfold _check_structure_compliance. cbv zeta.
  destruct (any_required _ content); simpl; split; intros H;
    try discriminate; reflexivity.
Qed.

(** What the type-specific check asks of each of the three types. *)
Lemma document_specific_nil (content document_type : string) :
  _check_document_specific_compliance content document_type = []
  <-> (document_type = "Articles of Association" ->
       str_in "capital" content = true)
      /\ (document_type = "UBO Declaration" ->
          str_in "percentage" content || str_in "ownership" content = true)
      /\ (document_type = "Employment Contract" ->
          str_in "termination" content || str_in "notice" content = true).
Proof.
  unfold _check_document_specific_compliance. cbv zeta.
  destruct (String.eqb_spec document_type "Articles of Association") as [->|N1].
  - assert (Hshare : str_in "capital" content = false ->
                     str_in "share capital" content = false).
    { intros Hc. destruct (str_in "share capital" content) eqn:E; [|reflexivity].
      apply (str_in_app_r "share " "capital") in E. rewrite Hc in E. discriminate. }
    destruct (str_in "capital" content) eqn:Hc.
    + rewrite andb_false_r. simpl. split; [|reflexivity].
      intros _. repeat split; intros; try reflexivity; discriminate.
    + rewrite (Hshare eq_refl). simpl. split; [discriminate|].
      intros (H & _). specialize (H eq_refl). discriminate.
  - destruct (String.eqb_spec document_type "UBO Declaration") as [->|N2].
    + destruct (str_in "percentage" content), (str_in "ownership" content); simpl;
        split; intros H; try discriminate; try reflexivity;
        try (repeat split; intros; try reflexivity; discriminate);
        destruct H as (_ & H & _); specialize (H eq_refl); discriminate.
    + destruct (String.eqb_spec document_type "Employment Contract") as [->|N3].
      * destruct (str_in "termination" content), (str_in "notice" content); simpl;
          split; intros H; try discriminate; try reflexivity;
          try (repeat split; intros; try reflexivity; discriminate);
          destruct H as (_ & _ & H); specialize (H eq_refl); discriminate.
      * split; [|reflexivity]. intros _.
        repeat split; intros E; now rewrite E in *.
Qed.

(** X16.  The evaluator returns no issue exactly when the lowered
    content has no forbidden jurisdiction phrase, has a required ADGM
    phrase, has no forbidden law phrase, has a signature word and a
    structure word, and meets the requirement of its type: ["capital"]
    for Articles of Association, ["percentage"] or ["ownership"] for a
    UBO Declaration, ["termination"] or ["notice"] for an Employment
    Contract. *)
Theorem no_issue_iff_all_rules_met (content document_type : string) :
  let c := lower content in
  let contains phrase := str_in (lower phrase) c in
  check_adgm_compliance content document_type = []
  <-> (forall phrase, In phrase (Rule.forbidden (jurisdiction compliance_rules)) ->
                      contains phrase = false)
      /\ (exists phrase, In phrase (Rule.required (jurisdiction compliance_rules))
                         /\ contains phrase = true)
      /\ (forall phrase, In phrase (Rule.forbidden (governing_law compliance_rules)) ->
                         contains phrase = false)
      /\ (exists phrase, In phrase (Rule.required (signature_blocks compliance_rules))
                         /\ contains phrase = true)
      /\ (exists phrase, In phrase (Rule.required (document_structure compliance_rules))
                         /\ contains phrase = true)
      /\ (document_type = "Articles of Association" -> str_in "capital" c = true)
      /\ (document_type = "UBO Declaration" ->
          str_in "percentage" c || str_in "ownership" c = true)
      /\ (document_type = "Employment Contract" ->
          str_in "termination" c || str_in "notice" c = true).
Proof.
  intros c contains. rewrite check_adgm_compliance_parts. fold c.
  rewrite !app_nil_iff, !to_list_nil.
  rewrite jurisdiction_none, governing_law_none, signature_none, structure_none,
    document_specific_nil.
  rewrite !first_forbidden_None, !any_required_true.
  unfold contains. tauto.
Qed.

(** X17.  The evaluator ignores the letter case of the content. *)
Theorem check_ignores_case :
  (forall content1 content2 document_type,
      lower content1 = lower content2 ->
      check_adgm_compliance content1 document_type
      = check_adgm_compliance content2 document_type)
  /\ forall content document_type,
       check_adgm_compliance (lower content) document_type
       = check_adgm_compliance content document_type.
Proof.
  split.
  - intros content1 content2 document_type H.
    unfold check_adgm_compliance. now rewrite H.
  - intros content document_type. unfold check_adgm_compliance.
    now rewrite lower_idempotent.
Qed.

Lemma check_ignores_case_witness :
  lower "ADGM COURTS" = lower "adgm courts"
  /\ check_adgm_compliance "ADGM COURTS" "Board Resolution"
     = check_adgm_compliance "adgm courts" "Board Resolution".
Proof.
  split; [reflexivity|].
  apply (proj1 check_ignores_case). reflexivity.
Defined.

(** X18.  The type-specific check returns at most one issue and none
    for a type other than the three it knows; for Articles of
    Association it passes exactly when the content has ["capital"] (the
    test on ["share capital"] adds nothing), for a UBO Declaration when
    it has ["percentage"] or ["ownership"], for an Employment Contract
    when it has ["termination"] or ["notice"]. *)
Theorem document_specific_check (content document_type : string) :
  let found := _check_document_specific_compliance content document_type in
  length found <= 1
  /\ (~ In document_type
          ["Articles of Association"; "UBO Declaration"; "Employment Contract"] ->
      found = [])
  /\ (document_type = "Articles of Association" ->
      (found = [] <-> str_in "capital" content = true))
  /\ (document_type = "UBO Declaration" ->
      (found = [] <-> str_in "percentage" content = true
                      \/ str_in "ownership" content = true))
  /\ (document_type = "Employment Contract" ->
      (found = [] <-> str_in "termination" content = true
                      \/ str_in "notice" content = true)).
Proof.
  intros found.
  pose proof (document_specific_nil content document_type) as Hnil.
  fold found in Hnil.
  split; [|split; [|split; [|split]]].
  - unfold found, _check_document_specific_compliance. cbv zeta.
    destruct (document_type =? "Articles of Association");
      [|destruct (document_type =? "UBO Declaration");
        [|destruct (document_type =? "Employment Contract")]];
      match goal with
      | |- context [if ?b then _ else _] => destruct b
      | _ => idtac
      end; simpl; lia.
  - intros Hnot. apply Hnil. simpl in Hnot.
    repeat split; intros E; exfalso; apply Hnot; rewrite E; tauto.
  - intros ->. rewrite Hnil. split.
    + intros (H & _). now apply H.
    + intros H. repeat split; intros E; [exact H | discriminate E | discriminate E].
  - intros ->. rewrite Hnil, <- orb_true_iff. split.
    + intros (_ & H & _). now apply H.
    + intros H. repeat split; intros E; [discriminate E | exact H | discriminate E].
  - intros ->. rewrite Hnil, <- orb_true_iff. split.
    + intros (_ & _ & H). now apply H.
    + intros H. repeat split; intros E; [discriminate E | discriminate E | exact H].
Qed.

Lemma document_specific_check_witness :
  "Articles of Association" = "Articles of Association"
  /\ (_check_document_specific_compliance "the share capital is aed 100"
        "Articles of Association" = []
      <-> str_in "capital" "the share capital is aed 100" = true).
Proof.
  split; [reflexivity|].
  destruct (document_specific_check "the share capital is aed 100"
              "Articles of Association") as (_ & _ & H & _).
  apply H. reflexivity.
Defined.

(** X19.  On an empty text the evaluator reports the missing
    jurisdiction clause (High), the missing signature (Medium) and the
    poor structure (Low), followed by the type-specific issue for the
    three types that have one. *)
Theorem check_empty_content (document_type : string) :
  map issue (check_adgm_compliance "" document_type)
  = [ "Missing ADGM jurisdiction clause"; "Missing signature section";
      "Poor document structure" ]
    ++ (if document_type =? "Articles of Association"
        then ["Missing share capital information"]
        else if document_type =? "UBO Declaration"
        then ["Missing ownership percentages"]
        else if document_type =? "Employment Contract"
        then ["Missing termination clauses"]
        else [])
  /\ map severity (firstn 3 (check_adgm_compliance "" document_type))
     = [Some "High"; Some "Medium"; Some "Low"].
Proof.
  rewrite check_adgm_compliance_parts.
  unfold _check_document_specific_compliance. cbv zeta.
  destruct (document_type =? "Articles of Association");
    [|destruct (document_type =? "UBO Declaration");
      [|destruct (document_type =? "Employment Contract")]];
    split; reflexivity.
Qed.

(* ================================================================== *)
(** * Further properties of the report aggregator *)
(* ================================================================== *)

Lemma high_lines_length (documents : list Document) :
  length (spec.high_lines documents)
  = length (filter is_high (spec.all_issues documents)).
Proof.
  unfold spec.high_lines, spec.all_issues.
  induction documents as [|doc rest IH]; simpl; [reflexivity|].
  rewrite filter_app, !length_app, length_map. now f_equal.
Qed.

Lemma recommendations_length (documents : list Document) (c : ChecklistResult) :
  1 <= length (spec.recommendations documents c) <= 6.
Proof.
  unfold spec.recommendations.
  pose proof (firstn_le_length 3 (spec.high_lines documents)) as H3.
  destruct (missing_documents c) as [|m ms];
    destruct (spec.high_lines documents) as [|h hs];
    destruct (PrimFloat.ltb (completeness_percentage c) 80%float);
    cbn [app length]; rewrite ?length_app; cbn [length]; lia.
Qed.

Lemma all_issues_app (documents1 documents2 : list Document) :
  spec.all_issues (documents1 ++ documents2)
  = spec.all_issues documents1 ++ spec.all_issues documents2.
Proof. unfold spec.all_issues. apply flat_map_app. Qed.

Lemma in_dec_process (process_name : string) :
  In process_name get_all_processes \/ ~ In process_name get_all_processes.
Proof.
  destruct (in_dec string_dec process_name get_all_processes); [now left|now right].
Qed.

(** X20.  The aggregator returns its error report, with the message of
    the key error on ["missing_documents"], exactly for the process
    names that are not listed, and a normal report exactly for the
    listed ones, whatever the documents. *)
Theorem report_error_iff_unknown_process (documents : list Document)
    (process_name : string) :
  (generate_comprehensive_report documents process_name
   = ReportError "error" "'missing_documents'"
   <-> ~ In process_name get_all_processes)
  /\ ((exists r, generate_comprehensive_report documents process_name = ReportOk r)
      <-> In process_name get_all_processes).
Proof.
  destruct (in_dec_process process_name) as [Hin|Hnot].
  - destruct (report_known documents _ Hin) as (cr & _ & Hr).
    split; split.
    + rewrite Hr. discriminate.
    + intros Hnot. now elim Hnot.
    + intros _. exact Hin.
    + intros _. eexists. exact Hr.
  - pose proof (report_unknown documents _ Hnot) as Hr.
    split; split.
    + intros _. exact Hnot.
    + intros _. exact Hr.
    + intros [r Hok]. rewrite Hr in Hok. discriminate.
    + intros Hin. now elim Hnot.
Qed.

(** X21.  Every normal report repeats the process name, counts the
    documents it was given and carries them unchanged, has no more High
    issues than issues, has between one and six recommendations, one of
    the three compliance statuses, and a normal checklist result for the
    same process. *)
Theorem report_invariants (documents : list Document) (process_name : string)
    (r : ComplianceReport) :
  generate_comprehensive_report documents process_name = ReportOk r ->
  doc_processing.process r = process_name
  /\ documents_analyzed r = length documents
  /\ document_details r = documents
  /\ high_severity_issues r <= total_issues_found r
  /\ 1 <= length (recommendations r) <= 6
  /\ In (compliance_status r)
       ["Fully Compliant"; "Partially Compliant"; "Non-Compliant"]
  /\ exists c,
       checklist_verification r = ChecklistOk c
       /\ checklist.process c = process_name.
Proof.
  intros Hr.
  destruct (in_dec_process process_name) as [Hin|Hnot].
  - destruct (report_known documents _ Hin) as (cr & Hv & Hk).
    rewrite Hk in Hr. injection Hr as <-.
    cbn [doc_processing.process documents_analyzed document_details
         high_severity_issues total_issues_found recommendations
         compliance_status checklist_verification].
    split; [reflexivity|]. split; [reflexivity|]. split; [reflexivity|].
    split; [apply high_le_total|]. split; [apply recommendations_length|].
    split.
    + unfold derive_status.
      destruct ((count_issues documents =? 0)%nat && (status cr =? "complete"));
        [simpl; tauto|].
      destruct (count_high_issues documents =? 0)%nat; simpl; tauto.
    + exists cr. split; [reflexivity|].
      destruct (known_process _ Hin) as [c Hget].
      rewrite (verify_known _ _ _ Hget) in Hv. injection Hv as <-. reflexivity.
  - rewrite (report_unknown documents _ Hnot) in Hr. discriminate.
Qed.

Lemma report_invariants_witness :
  exists r,
    generate_comprehensive_report [empty_document_analysis] "Licensing" = ReportOk r
    /\ high_severity_issues r <= total_issues_found r
    /\ 1 <= length (recommendations r) <= 6.
Proof.
  destruct (report_known [empty_document_analysis] "Licensing") as (cr & _ & Hr);
    [unfold get_all_processes; simpl; tauto|].
  eexists. split; [exact Hr|].
  destruct (report_invariants [empty_document_analysis] "Licensing" _ Hr)
    as (_ & _ & _ & Hle & Hlen & _).
  split; assumption.
Defined.

(** On a result of the verifier the status is ["complete"] exactly at
    100.0 and exactly when nothing is missing. *)
Lemma complete_status_facts (uploaded_docs : list string) (process_name : string)
    (r : ChecklistResult) :
  verify_checklist_completeness uploaded_docs process_name = inr (ChecklistOk r) ->
  (status r = "complete" <-> completeness_percentage r = 100%float)
  /\ (status r = "complete" <-> missing_documents r = []).
Proof.
  intros Hr. destruct (verify_ok_known _ _ _ Hr) as [c Hget].
  rewrite (verify_known _ _ _ Hget) in Hr. injection Hr as <-.
  cbn [status completeness_percentage missing_documents].
  set (k := is_uploaded (map lower uploaded_docs)).
  pose proof (known_checklist_size _ _ Hget) as Hsize.
  pose proof (filter_split_length k (required_documents c)) as Hsplit.
  destruct (percentage_ends (length (required_documents c))
              (length (filter k (required_documents c))) Hsize) as [H100 _];
    [lia|].
  split; [|apply status_complete_iff].
  rewrite status_complete_iff, H100. split.
  - intros E. rewrite E in Hsplit. simpl in Hsplit. lia.
  - intros E. apply length_zero_iff_nil. lia.
Qed.

(** X22.  A Fully Compliant report has no issue, a checklist with
    nothing missing at 100.0, and the affirmative line as its only
    recommendation; and a report whose only recommendation is the
    affirmative line is not Non-Compliant, has no High issue and a
    complete checklist. *)
Theorem fully_compliant_report (documents : list Document) (process_name : string)
    (r : ComplianceReport) :
  generate_comprehensive_report documents process_name = ReportOk r ->
  (compliance_status r = "Fully Compliant" ->
   total_issues_found r = 0
   /\ high_severity_issues r = 0
   /\ recommendations r = ["Documents appear compliant. Proceed with submission."]
   /\ exists c,
        checklist_verification r = ChecklistOk c
        /\ missing_documents c = []
        /\ completeness_percentage c = 100%float)
  /\ (recommendations r = ["Documents appear compliant. Proceed with submission."] ->
      compliance_status r <> "Non-Compliant"
      /\ high_severity_issues r = 0
      /\ result_status (checklist_verification r) = "complete").
Proof.
  intros Hr.
  destruct (in_dec_process process_name) as [Hin|Hnot];
    [|rewrite (report_unknown documents _ Hnot) in Hr; discriminate].
  destruct (report_known documents _ Hin) as (cr & Hv & Hk).
  rewrite Hk in Hr. injection Hr as <-.
  cbn [compliance_status total_issues_found high_severity_issues recommendations
       checklist_verification result_status].
  pose proof (derive_status_cases (count_issues documents)
                (count_high_issues documents) (status cr)) as Hd.
  cbv zeta in Hd. destruct Hd as (Hfull & _ & Hnon).
  pose proof (high_le_total documents) as Hle.
  pose proof (complete_status_facts _ _ _ Hv) as (Hc100 & Hcm).
  assert (Hlines : spec.high_lines documents = [] <-> count_high_issues documents = 0).
  { rewrite count_high_issues_all, <- high_lines_length.
    symmetry. apply length_zero_iff_nil. }
  split.
  - intros Hs. apply Hfull in Hs. destruct Hs as [Ht Hst].
    assert (Hh : count_high_issues documents = 0) by lia.
    split; [exact Ht|]. split; [exact Hh|]. split.
    + unfold spec.recommendations.
      rewrite (proj1 Hcm Hst), (proj2 Hlines Hh), (proj1 Hc100 Hst).
      reflexivity.
    + exists cr. split; [reflexivity|]. split; [now apply Hcm | now apply Hc100].
  - unfold spec.recommendations.
    destruct (missing_documents cr) as [|m ms] eqn:Em;
      destruct (spec.high_lines documents) as [|h hs] eqn:Eh;
      destruct (PrimFloat.ltb (completeness_percentage cr) 80%float);
      simpl; intros H; try discriminate H.
    assert (Hh : count_high_issues documents = 0) by now apply Hlines.
    assert (Hst : status cr = "complete") by now apply Hcm.
    split; [|split; [exact Hh | exact Hst]].
    intros Hs. apply Hnon in Hs. lia.
Qed.

Lemma fully_compliant_report_witness :
  exists r,
    generate_comprehensive_report
      [ {| filename := "Board Charter.docx"; issues := Some [] |};
        {| filename := "Corporate Governance Manual.docx"; issues := None |};
        {| filename := "Code of Conduct.docx"; issues := Some [] |};
        {| filename := "Whistleblower Policy.docx"; issues := Some [] |};
        {| filename := "Board Meeting Minutes Template.docx"; issues := Some [] |} ]
      "Corporate Governance"
    = ReportOk r
    /\ compliance_status r = "Fully Compliant"
    /\ recommendations r = ["Documents appear compliant. Proceed with submission."].
Proof.
  destruct (report_known
              [ {| filename := "Board Charter.docx"; issues := Some [] |};
                {| filename := "Corporate Governance Manual.docx"; issues := None |};
                {| filename := "Code of Conduct.docx"; issues := Some [] |};
                {| filename := "Whistleblower Policy.docx"; issues := Some [] |};
                {| filename := "Board Meeting Minutes Template.docx";
                   issues := Some [] |} ]
              "Corporate Governance")
    as (cr & Hv & Hr); [unfold get_all_processes; simpl; tauto|].
  vm_compute in Hv. injection Hv as <-.
  eexists. split; [exact Hr|].
  split; [reflexivity|].
  apply (proj1 (fully_compliant_report _ _ _ Hr)). reflexivity.
Defined.

(** X23.  For a known process and no document at all, the report
    counts nothing, is Partially Compliant, and recommends uploading all
    the required documents and completing the package. *)
Theorem report_of_no_document (process_name : string) (c : Checklist) :
  get_checklist_for_process process_name = Some c ->
  exists r,
    generate_comprehensive_report [] process_name = ReportOk r
    /\ documents_analyzed r = 0
    /\ total_issues_found r = 0
    /\ high_severity_issues r = 0
    /\ compliance_status r = "Partially Compliant"
    /\ recommendations r
       = [ missing_line (required_documents c);
           "Complete document package for better compliance" ].
Proof.
  intros Hget.
  assert (Hin : In process_name get_all_processes).
  { destruct (in_dec_process process_name) as [Hin|Hnot]; [exact Hin|].
    apply dict_get_None in Hnot. unfold get_checklist_for_process in Hget.
    rewrite Hnot in Hget. discriminate. }
  destruct (report_known [] _ Hin) as (cr & Hv & Hr).
  eexists. split; [exact Hr|].
  cbn [documents_analyzed total_issues_found high_severity_issues
       compliance_status recommendations].
  change (map filename []) with (@nil string) in Hv.
  rewrite (verify_known [] _ _ Hget) in Hv.
  change (map lower []) with (@nil string) in Hv.
  destruct (filter_all_false (is_uploaded []) (required_documents c))
    as [E1 E2]; [reflexivity|].
  rewrite E1, E2 in Hv. injection Hv as <-.
  pose proof (known_checklist_size _ _ Hget) as Hsize.
  pose proof (known_checklist_nonempty _ _ Hget) as Hne.
  destruct (percentage_ends _ 0 Hsize (Nat.le_0_l _)) as [_ H0].
  unfold spec.recommendations.
  cbn [status missing_documents completeness_percentage length].
  rewrite (proj2 H0 eq_refl).
  repeat split.
  - destruct (required_documents c); [now elim Hne | reflexivity].
  - destruct (required_documents c); [now elim Hne | reflexivity].
Qed.

Lemma report_of_no_document_witness :
  exists c,
    get_checklist_for_process "Employment" = Some c
    /\ exists r,
         generate_comprehensive_report [] "Employment" = ReportOk r
         /\ compliance_status r = "Partially Compliant".
Proof.
  eexists. split; [reflexivity|].
  destruct (report_of_no_document "Employment" _ eq_refl)
    as (r & Hr & _ & _ & _ & Hs & _).
  exists r. split; assumption.
Defined.

Lemma in_all_issues (documents : list Document) (doc : Document) (i : Issue) :
  In doc documents -> In i (get_issues doc) -> In i (spec.all_issues documents).
Proof.
  intros Hd Hi. unfold spec.all_issues. apply in_flat_map. now exists doc.
Qed.

Lemma high_issue_counted (documents : list Document) (doc : Document) (i : Issue) :
  In doc documents -> In i (get_issues doc) -> is_high i = true ->
  0 < count_high_issues documents.
Proof.
  intros Hd Hi Hh. rewrite count_high_issues_all.
  assert (Hin : In i (filter is_high (spec.all_issues documents))).
  { apply filter_In. split; [now apply (in_all_issues _ doc)|exact Hh]. }
  destruct (filter is_high (spec.all_issues documents)); [contradiction|simpl; lia].
Qed.

(** X24.  If one analysed document of the batch carries the evaluator's
    issues for a text that names a forbidden jurisdiction or names no
    ADGM jurisdiction, the report of a known process has a High issue,
    is Non-Compliant and recommends addressing the High issues. *)
Theorem jurisdiction_problem_is_non_compliant (documents : list Document)
    (doc : Document) (content document_type process_name : string) :
  In process_name get_all_processes ->
  In doc documents ->
  issues doc = Some (check_adgm_compliance content document_type) ->
  ((exists phrase,
       In phrase (Rule.forbidden (jurisdiction compliance_rules))
       /\ str_in (lower phrase) (lower content) = true)
   \/ (forall phrase,
          In phrase (Rule.required (jurisdiction compliance_rules)) ->
          str_in (lower phrase) (lower content) = false)) ->
  exists r,
    generate_comprehensive_report documents process_name = ReportOk r
    /\ 0 < high_severity_issues r
    /\ compliance_status r = "Non-Compliant"
    /\ In "Address high severity issues immediately" (recommendations r).
Proof.
  intros Hin Hdoc Hissues Hproblem.
  assert (Hj : exists i,
             _check_jurisdiction_compliance (lower content) = Some i
             /\ is_high i = true).
  { unfold _check_jurisdiction_compliance. cbv zeta.
    destruct (first_forbidden (jurisdiction compliance_rules) (lower content))
      as [phrase|] eqn:E.
    - eexists. split; reflexivity.
    - destruct Hproblem as [Hex|Hnone].
      + apply first_forbidden_found in Hex. destruct Hex as [phrase Hp].
        rewrite Hp in E. discriminate.
      + apply any_required_false in Hnone. rewrite Hnone.
        eexists. split; reflexivity. }
  destruct Hj as (i & Hi & Hhigh).
  assert (Hmem : In i (get_issues doc)).
  { unfold get_issues. rewrite Hissues, check_adgm_compliance_parts, Hi.
    now left. }
  pose proof (high_issue_counted _ _ _ Hdoc Hmem Hhigh) as Hpos.
  destruct (report_known documents _ Hin) as (cr & _ & Hr).
  eexists. split; [exact Hr|].
  cbn [high_severity_issues compliance_status recommendations].
  split; [exact Hpos|]. split.
  - pose proof (derive_status_cases (count_issues documents)
                  (count_high_issues documents) (status cr)) as Hd.
    cbv zeta in Hd. destruct Hd as (_ & _ & Hnon).
    pose proof (high_le_total documents) as Hle.
    apply Hnon. split; lia.
  - unfold spec.recommendations.
    assert (Hlines : spec.high_lines documents <> []).
    { intros E. apply (f_equal (@length string)) in E.
      rewrite high_lines_length, <- count_high_issues_all in E. simpl in E. lia. }
    destruct (spec.high_lines documents) as [|h hs]; [now elim Hlines|].
    destruct (missing_documents cr);
      destruct (PrimFloat.ltb (completeness_percentage cr) 80%float);
      simpl; tauto.
Qed.

Lemma jurisdiction_problem_is_non_compliant_witness :
  In "Compliance" get_all_processes
  /\ exists r,
       generate_comprehensive_report
         [ {| filename := "Compliance Manual.docx";
              issues := Some (check_adgm_compliance
                                "Signed clause: disputes go to the Dubai Courts."
                                "Compliance Manual") |} ]
         "Compliance"
       = ReportOk r
       /\ compliance_status r = "Non-Compliant".
Proof.
  assert (Hin : In "Compliance" get_all_processes)
    by (unfold get_all_processes; simpl; tauto).
  split; [exact Hin|].
  destruct (jurisdiction_problem_is_non_compliant
              [ {| filename := "Compliance Manual.docx";
                   issues := Some (check_adgm_compliance
                                     "Signed clause: disputes go to the Dubai Courts."
                                     "Compliance Manual") |} ]
              {| filename := "Compliance Manual.docx";
                 issues := Some (check_adgm_compliance
                                   "Signed clause: disputes go to the Dubai Courts."
                                   "Compliance Manual") |}
              "Signed clause: disputes go to the Dubai Courts."
              "Compliance Manual" "Compliance" Hin (or_introl eq_refl) eq_refl)
    as (r & Hr & _ & Hs & _).
  - left. exists "Dubai Courts". split; [simpl; tauto | reflexivity].
  - exists r. split; assumption.
Defined.

(** X25.  For a known process the numbers of documents, issues and
    High issues of the report of two batches put together are the sums
    of those of the two reports, and the joint report is Non-Compliant
    as soon as one of the two is. *)
Theorem report_totals_add_up (documents1 documents2 : list Document)
    (process_name : string) :
  In process_name get_all_processes ->
  exists r1 r2 r,
    generate_comprehensive_report documents1 process_name = ReportOk r1
    /\ generate_comprehensive_report documents2 process_name = ReportOk r2
    /\ generate_comprehensive_report (documents1 ++ documents2) process_name
       = ReportOk r
    /\ documents_analyzed r = documents_analyzed r1 + documents_analyzed r2
    /\ total_issues_found r = total_issues_found r1 + total_issues_found r2
    /\ high_severity_issues r = high_severity_issues r1 + high_severity_issues r2
    /\ (compliance_status r1 = "Non-Compliant" \/ compliance_status r2 = "Non-Compliant"
        -> compliance_status r = "Non-Compliant").
Proof.
  intros Hin.
  destruct (report_known documents1 _ Hin) as (c1 & _ & H1).
  destruct (report_known documents2 _ Hin) as (c2 & _ & H2).
  destruct (report_known (documents1 ++ documents2) _ Hin) as (c & _ & H).
  do 3 eexists. split; [exact H1|]. split; [exact H2|]. split; [exact H|].
  cbn [documents_analyzed total_issues_found high_severity_issues compliance_status].
  assert (Ht : count_issues (documents1 ++ documents2)
               = count_issues documents1 + count_issues documents2).
  { rewrite !count_issues_all, all_issues_app. apply length_app. }
  assert (Hh : count_high_issues (documents1 ++ documents2)
               = count_high_issues documents1 + count_high_issues documents2).
  { rewrite !count_high_issues_all, all_issues_app, filter_app. apply length_app. }
  split; [apply length_app|]. split; [exact Ht|]. split; [exact Hh|].
  pose proof (derive_status_cases (count_issues documents1)
                (count_high_issues documents1) (status c1)) as D1.
  pose proof (derive_status_cases (count_issues documents2)
                (count_high_issues documents2) (status c2)) as D2.
  pose proof (derive_status_cases (count_issues (documents1 ++ documents2))
                (count_high_issues (documents1 ++ documents2)) (status c)) as D.
  cbv zeta in D1, D2, D.
  destruct D1 as (_ & _ & N1), D2 as (_ & _ & N2), D as (_ & _ & N).
  pose proof (high_le_total (documents1 ++ documents2)) as Hle.
  intros [Hs|Hs]; [apply N1 in Hs | apply N2 in Hs]; apply N; split; lia.
Qed.

Lemma report_totals_add_up_witness :
  In "Employment" get_all_processes
  /\ exists r1 r2 r,
       generate_comprehensive_report [empty_document_analysis] "Employment"
       = ReportOk r1
       /\ generate_comprehensive_report [] "Employment" = ReportOk r2
       /\ generate_comprehensive_report ([empty_document_analysis] ++ []) "Employment"
          = ReportOk r
       /\ total_issues_found r = total_issues_found r1 + total_issues_found r2.
Proof.
  assert (Hin : In "Employment" get_all_processes)
    by (unfold get_all_processes; simpl; tauto).
  split; [exact Hin|].
  destruct (report_totals_add_up [empty_document_analysis] [] "Employment" Hin)
    as (r1 & r2 & r & H1 & H2 & H & _ & Ht & _).
  exists r1, r2, r. repeat split; assumption.
Defined.

(* ================================================================== *)
(** * Properties of the process information *)
(* ================================================================== *)

Lemma string_app_assoc (a b c : string) :
  ((a ++ b) ++ c = a ++ (b ++ c))%string.
Proof. induction a as [|x a IH]; simpl; [reflexivity|]. now rewrite IH. Qed.

Lemma string_app_nil_r (a : string) : (a ++ "" = a)%string.
Proof. induction a as [|x a IH]; simpl; [reflexivity|]. now rewrite IH. Qed.

Lemma add_document_lines (docs : list string) (i : nat) (info : string) :
  fold_left add_document_line docs (i, info)
  = (i + length docs, (info ++ numbered_lines i docs)%string).
Proof.
  revert i info. induction docs as [|doc rest IH]; intros i info; simpl.
  - now rewrite Nat.add_0_r, string_app_nil_r.
  - rewrite IH. f_equal; [lia|]. now rewrite !string_app_assoc.
Qed.

Lemma numbered_line_inside (docs : list string) (i k : nat) (doc : string) :
  nth_error docs k = Some doc ->
  exists before after,
    numbered_lines i docs
    = (before ++ (str_int (i + k) ++ ". " ++ doc ++ nl) ++ after)%string.
Proof.
  revert i k. induction docs as [|d rest IH]; intros i k H.
  - destruct k; discriminate.
  - destruct k as [|k]; simpl in H.
    + injection H as ->. exists "", (numbered_lines (S i) rest).
      rewrite Nat.add_0_r. reflexivity.
    + destruct (IH (S i) k H) as (before & after & E).
      exists ((str_int i ++ ". " ++ d ++ nl) ++ before)%string, after.
      change (numbered_lines i (d :: rest))
        with ((str_int i ++ ". " ++ d ++ nl) ++ numbered_lines (S i) rest)%string.
      rewrite E.
      replace (S i + k) with (i + S k) by lia.
      now rewrite !string_app_assoc.
Qed.

Lemma str_in_inside (a b needle c : string) :
  str_in needle (a ++ b ++ needle ++ c) = true.
Proof. rewrite <- (string_app_assoc a b). apply str_in_middle. Qed.

(** X26.  For a process name that is not listed, [get_process_info]
    returns ["Unknown process: <name>"], which is also the message of
    the verifier's error result. *)
Theorem process_info_unknown (process_name : string) :
  ~ In process_name get_all_processes ->
  get_process_info process_name = ("Unknown process: " ++ process_name)%string
  /\ forall uploaded_docs,
       verify_checklist_completeness uploaded_docs process_name
       = inr (ChecklistError "error" (get_process_info process_name)).
Proof.
  intros Hnot.
  assert (Hget : get_checklist_for_process process_name = None)
    by (now apply dict_get_None).
  assert (E : get_process_info process_name
              = ("Unknown process: " ++ process_name)%string).
  { unfold get_process_info. now rewrite Hget. }
  split; [exact E|]. intros uploaded_docs. rewrite E.
  now apply verify_unknown.
Qed.

Lemma process_info_unknown_witness :
  ~ In "Mergers" get_all_processes
  /\ get_process_info "Mergers" = "Unknown process: Mergers".
Proof.
  assert (Hnot : ~ In "Mergers" get_all_processes).
  { unfold get_all_processes. simpl.
    intros [H|[H|[H|[H|[H|[]]]]]]; discriminate. }
  split; [exact Hnot|]. apply (proj1 (process_info_unknown "Mergers" Hnot)).
Defined.

(** X27.  For a known process the information is the title, the
    description, the priority and the heading, followed by one line per
    required document in checklist order, numbered from 1; so the line
    ["<k+1>. <document>"] of the k-th required document occurs in it. *)
Theorem process_info_lists_documents (process_name : string) (c : Checklist) :
  get_checklist_for_process process_name = Some c ->
  let info := get_process_info process_name in
  info
  = ((("**" ++ process_name ++ "**" ++ nl ++ nl)
      ++ ("**Description:** " ++ description c ++ nl)
      ++ ("**Priority:** " ++ priority c ++ nl ++ nl)
      ++ ("**Required Documents:**" ++ nl))
     ++ numbered_lines 1 (required_documents c))%string
  /\ forall k doc,
       nth_error (required_documents c) k = Some doc ->
       str_in (str_int (S k) ++ ". " ++ doc ++ nl) info = true.
Proof.
  intros Hget info.
  assert (E : info
              = ((("**" ++ process_name ++ "**" ++ nl ++ nl)
                  ++ ("**Description:** " ++ description c ++ nl)
                  ++ ("**Priority:** " ++ priority c ++ nl ++ nl)
                  ++ ("**Required Documents:**" ++ nl))
                 ++ numbered_lines 1 (required_documents c))%string).
  { unfold info, get_process_info. rewrite Hget. cbv zeta.
    rewrite add_document_lines. cbn [snd].
    now rewrite !string_app_assoc. }
  split; [exact E|].
  intros k doc Hk.
  destruct (numbered_line_inside _ 1 k doc Hk) as (before & after & El).
  rewrite E, El. change (1 + k) with (S k). apply str_in_inside.
Qed.

Lemma process_info_lists_documents_witness :
  exists c,
    get_checklist_for_process "Employment" = Some c
    /\ str_in ("2. Confidentiality Agreement" ++ nl) (get_process_info "Employment")
       = true.
Proof.
  eexists. split; [reflexivity|].
  apply (proj2 (process_info_lists_documents "Employment" _ eq_refl) 1
           "Confidentiality Agreement").
  reflexivity.
Defined.
